(** * Diabetes risk checker (app.py): a shallow embedding and its properties

    The program is a single Streamlit script.  Its logic is a handful of
    pure helpers ([clip_value], [risk_level_from_prob], [health_advice]),
    three constant tables ([RANGES], [MEDIAN_FALLBACKS], [DPF_MAP]) and the
    block that runs when the form is submitted.

    Numbers.  Python's [int] values are integers ([Z]); Python's finite
    [float] values are modelled by the rationals they denote ([Q]), with the
    arithmetic done exactly.  Numeric equality (Python's [==]) is [Qeq],
    written [==]; comparisons are the decidable comparisons of [Q].  NaN,
    infinities and binary rounding error are outside this reading.  Where
    they matter, in the division and the rounding of the BMI (lines
    142-145), the same lines are also evaluated in IEEE 754 binary64, the
    arithmetic of Python's [float] ([PyFloat], [compute_bmi64]).

    Effects.  Calls to the Streamlit API are recorded, in order, in a log of
    [st_call]s; Python exceptions are values of [exn] carried by [result]. *)

From Stdlib Require Import ZArith QArith Qround Qminmax Qabs SpecFloat.
From Stdlib Require Import String DecimalString List Bool Lia Lqa.
Import ListNotations.

Local Open Scope string_scope.
Local Open Scope Q_scope.

(* ====================================================================== *)
(** ** Python numbers *)
(* ====================================================================== *)

Module PyNum.

(** [x < y] on numbers, as a boolean. *)
Definition ltb (x y : Q) : bool :=
  match x ?= y with Lt => true | _ => false end.

(** [x >= y] on numbers, as a boolean. *)
Definition geb (x y : Q) : bool :=
  match x ?= y with Lt => false | _ => true end.

(** [x == y] on numbers, as a boolean. *)
Definition eqb (x y : Q) : bool :=
  match x ?= y with Eq => true | _ => false end.

(** Round to the nearest integer, ties to the even neighbour: the rounding
    rule of Python 3's built-in [round]. *)
Definition round_half_even (x : Q) : Z :=
  let k := Qfloor x in
  match ((x - inject_Z k) ?= (1 # 2))%Q with
  | Lt => k
  | Gt => (k + 1)%Z
  | Eq => if Z.even k then k else (k + 1)%Z
  end.

(** [10 ** ndigits] *)
Definition pow10 (ndigits : nat) : Q := inject_Z (10 ^ Z.of_nat ndigits).

(** [round(x, ndigits)] for [ndigits >= 0]. *)
Definition round (x : Q) (ndigits : nat) : Q :=
  inject_Z (round_half_even (x * pow10 ndigits)) / pow10 ndigits.

(** [np.maximum(x1, x2)] and [np.minimum(x1, x2)] on scalars. *)
Definition np_maximum (x1 x2 : Q) : Q := Qmax x1 x2.
Definition np_minimum (x1 x2 : Q) : Q := Qmin x1 x2.

(** [np.clip(a, a_min, a_max)]: by numpy's definition the same as
    [np.minimum(a_max, np.maximum(a, a_min))]. *)
Definition np_clip (a a_min a_max : Q) : Q :=
  np_minimum a_max (np_maximum a a_min).

End PyNum.

(** Python's [float]: IEEE 754 binary64, every operation rounded to the
    nearest double, ties to even. *)
Module PyFloat.

Definition prec : Z := 53.
Definition emax : Z := 1024.

Definition float : Type := spec_float.

(** The double nearest to a rational: the value of a decimal literal, and
    of the decimal string that [round] converts back. *)
Definition of_Q (q : Q) : float :=
  let '(mz, ez, lz) :=
    SFdiv_core_binary prec emax (Z.abs (Qnum q)) 0 (Zpos (Qden q)) 0 in
  match Qnum q with
  | Z0 => S754_zero false
  | Zpos _ => binary_round_aux prec emax false mz ez lz
  | Zneg _ => binary_round_aux prec emax true mz ez lz
  end.

(** The rational that a finite double denotes. *)
Definition to_Q (x : float) : Q :=
  match x with
  | S754_finite s m e => inject_Z (if s then Zneg m else Zpos m) * 2 ^ e
  | _ => 0
  end.

Definition div : float -> float -> float := SFdiv prec emax.
Definition mul : float -> float -> float := SFmul prec emax.

(** [x < y], [x <= y] and [x == y]: all false when an operand is NaN. *)
Definition ltb : float -> float -> bool := SFltb.
Definition eqb : float -> float -> bool := SFeqb.

Definition is_nan (x : float) : bool :=
  match x with S754_nan => true | _ => false end.
Definition is_inf (x : float) : bool :=
  match x with S754_infinity _ => true | _ => false end.
Definition is_zero (x : float) : bool :=
  match x with S754_zero _ => true | _ => false end.

(** [round(x, ndigits)] for [ndigits >= 0]: the exact value of [x] is
    rounded to a decimal with [ndigits] places, ties to even, and the
    decimal is converted to the nearest double; a zero keeps the sign of
    [x].  NaN, infinities and zeros round to themselves. *)
Definition round (x : float) (ndigits : nat) : float :=
  match x with
  | S754_finite s _ _ =>
      let q := PyNum.round (to_Q x) ndigits in
      if Qeq_bool q 0 then S754_zero s else of_Q q
  | _ => x
  end.

(** The scalar maximum and minimum of numpy's [clip] loop: a NaN first
    operand is returned, else [a > b ? a : b] and [a < b ? a : b]. *)
Definition np_maximum (a b : float) : float :=
  if is_nan a then a else if ltb b a then a else b.
Definition np_minimum (a b : float) : float :=
  if is_nan a then a else if ltb a b then a else b.

(** [np.clip(a, a_min, a_max)] on doubles. *)
Definition np_clip (a a_min a_max : float) : float :=
  np_minimum (np_maximum a a_min) a_max.

End PyFloat.

(** The double that a decimal literal of the source denotes. *)
Definition f64 (q : Q) : PyFloat.float := PyFloat.of_Q q.

(* ====================================================================== *)
(** ** Exceptions *)
(* ====================================================================== *)

(** The Python exceptions that the script can meet.  [IndexError] carries
    its message, which depends on the type of the sequence indexed.
    [ExternalError] stands for any other exception of class [Exception]
    that the classifier object raises, and [NonException] for one that is
    not an instance of [Exception] ([SystemExit], [KeyboardInterrupt],
    [GeneratorExit] or a class derived from [BaseException] directly); both
    carry the text of [str(e)]. *)
Inductive exn : Type :=
| ZeroDivisionError
| OverflowError
| KeyError (key : string)
| IndexError (msg : string)
| ExternalError (msg : string)
| NonException (msg : string).

(** [str(e)] *)
Definition exn_str (e : exn) : string :=
  match e with
  | ZeroDivisionError => "float division by zero"
  | OverflowError => "(34, 'Numerical result out of range')"
  | KeyError k => "'" ++ k ++ "'"
  | IndexError msg => msg
  | ExternalError msg => msg
  | NonException msg => msg
  end.

(** [isinstance(e, Exception)] *)
Definition is_Exception (e : exn) : bool :=
  match e with
  | NonException _ => false
  | _ => true
  end.

Inductive result (A : Type) : Type :=
| Ok (a : A)
| Raise (e : exn).
Arguments Ok {A} a.
Arguments Raise {A} e.

Definition rbind {A B} (r : result A) (k : A -> result B) : result B :=
  match r with
  | Ok a => k a
  | Raise e => Raise e
  end.

Declare Scope result_scope.
Delimit Scope result_scope with result.
Notation "'let?' x ':=' r 'in' k" :=
  (rbind r (fun x => k))
  (at level 10, x pattern, r at level 100, k at level 200) : result_scope.
Local Open Scope result_scope.

(** [x / y] on floats: raises [ZeroDivisionError] when [y] is zero. *)
Definition py_div (x y : Q) : result Q :=
  if PyNum.eqb y 0 then Raise ZeroDivisionError else Ok (x / y).

(** The sequences that are indexed: Python lists, and numpy arrays as the
    estimators of scikit-learn return them. *)
Inductive seq_type : Type := PyList | NdArray.

(** [str(n)] for a natural number. *)
Definition nat_str (n : nat) : string :=
  NilEmpty.string_of_uint (Nat.to_uint n).

(** The message of the [IndexError] raised by [l[i]] when [l] has [size]
    items along its first axis and [i >= size]. *)
Definition index_error_text (t : seq_type) (i size : nat) : string :=
  match t with
  | PyList => "list index out of range"
  | NdArray =>
      "index " ++ nat_str i ++ " is out of bounds for axis 0 with size "
      ++ nat_str size
  end.

(** [x / y] on doubles: raises [ZeroDivisionError] when [y] is a zero. *)
Definition py_fdiv (x y : PyFloat.float) : result PyFloat.float :=
  if PyFloat.is_zero y then Raise ZeroDivisionError
  else Ok (PyFloat.div x y).

(** [x ** 2] on a double.  NaN, infinities and zeros are answered by
    Python itself; otherwise the result is the C library's [pow(x, 2.0)],
    taken here as the correctly rounded square, and an overflow raises
    [OverflowError]. *)
Definition py_fpow2 (x : PyFloat.float) : result PyFloat.float :=
  match x with
  | S754_finite _ _ _ =>
      let y := PyFloat.mul x x in
      if PyFloat.is_inf y then Raise OverflowError else Ok y
  | S754_zero _ => Ok (S754_zero false)
  | S754_infinity _ => Ok (S754_infinity false)
  | S754_nan => Ok S754_nan
  end.

(** [l[i]] on a sequence of type [t], for [i >= 0]: raises [IndexError] out
    of range. *)
Definition py_index {A} (t : seq_type) (l : list A) (i : nat) : result A :=
  match nth_error l i with
  | Some a => Ok a
  | None => Raise (IndexError (index_error_text t i (length l)))
  end.

(* ====================================================================== *)
(** ** Config / Constants *)
(* ====================================================================== *)

(** The keys of [RANGES]. *)
Inductive range_key : Type :=
| k_age | k_glucose | k_blood | k_skin | k_insulin | k_bmi | k_weight
| k_height.

(** Recommended ranges: [RANGES[key] = (min, max)]. *)
Definition RANGES (k : range_key) : Q * Q :=
  match k with
  | k_age => (10, 100)
  | k_glucose => (40, 300)
  | k_blood => (40, 140)
  | k_skin => (5, 80)
  | k_insulin => (10, 400)
  | k_bmi => (10, 60)
  | k_weight => (20.0, 250.0)
  | k_height => (100.0, 220.0)
  end.

(** The keys of [MEDIAN_FALLBACKS]. *)
Inductive fallback_key : Type := k_Insulin | k_SkinThickness.

(** Median fallbacks used when an optional input is missing. *)
Definition MEDIAN_FALLBACKS (k : fallback_key) : Q :=
  match k with
  | k_Insulin => 80.0
  | k_SkinThickness => 20.0
  end.

(** DPF mapping (dropdown label -> numeric value), in insertion order. *)
Definition DPF_MAP : list (string * Q) :=
  [ ("ไม่มีประวัติในครอบครัว", 0.05);
    ("ญาติห่าง (เช่น ป้า/น้า/อา) เป็น", 0.5);
    ("พ่อหรือแม่เป็น", 1.0);
    ("พ่อแม่ + พี่น้องเป็น", 2.0);
    ("หลายคนในครอบครัวเป็น", 2.5) ].

(** [d[key]] on a dict with string keys: raises [KeyError] when the key is
    missing. *)
Fixpoint dict_getitem {V} (d : list (string * V)) (key : string) : result V :=
  match d with
  | [] => Raise (KeyError key)
  | (k, v) :: d' => if String.eqb k key then Ok v else dict_getitem d' key
  end.

(** [list(d.keys())] *)
Definition dict_keys {V} (d : list (string * V)) : list string := map fst d.

(* ====================================================================== *)
(** ** Helpers *)
(* ====================================================================== *)

(** The constant [MODEL_FILENAME]. *)
Definition MODEL_FILENAME : string := "Diabetset.pkl".

(** The loaded classifier: an object that may have [predict_proba] and has
    [predict]; either call may raise.  What the calls return is indexed by
    the script; [returns] is the type of these sequences. *)
Record classifier : Type := Classifier {
  predict_proba : option (list (list Q) -> result (list (list Q)));
  predict : list (list Q) -> result (list Q);
  returns : seq_type
}.

(** What the file system and [joblib.load] do when the model is loaded:
    the file is missing, loading raises an [Exception] with some message,
    a classifier object is returned, or the file holds [None] and [None] is
    returned. *)
Inductive load_outcome : Type :=
| FileMissing
| LoadRaises (e : string)
| Loaded (m : classifier)
| LoadedNone.

(** [load_model(path)] returns the pair (model, error message). *)
Definition load_model (path : string) (o : load_outcome)
  : option classifier * option string :=
  match o with
  | Loaded m => (Some m, None)
  | LoadedNone => (None, None)
  | LoadRaises e => (None, Some ("พบข้อผิดพลาดขณะโหลดโมเดล: " ++ e))
  | FileMissing =>
      (None,
       Some ("ไม่พบไฟล์โมเดล '" ++ path
             ++ "'. กรุณาอัปโหลดไฟล์ Diabetset.pkl ใน repository เดียวกับ app.py"))
  end.

(** [clip_value(v, minv, maxv) = float(np.clip(v, minv, maxv))] *)
Definition clip_value (v minv maxv : Q) : Q := PyNum.np_clip v minv maxv.

(** [clip_value(v, *RANGES[k])] *)
Definition clip_to (v : Q) (k : range_key) : Q :=
  let '(minv, maxv) := RANGES k in clip_value v minv maxv.

Definition risk_level_from_prob (p : Q) : string * string :=
  if PyNum.ltb p 0.30 then
    ("ต่ำ", "ความเสี่ยงต่ำ แต่ควรดูแลสุขภาพอย่างสม่ำเสมอ")
  else if PyNum.ltb p 0.60 then
    ("ปานกลาง", "ความเสี่ยงปานกลาง — แนะนำตรวจสุขภาพเพิ่มเติมและปรับพฤติกรรม")
  else
    ("สูง", "ความเสี่ยงสูง — ควรปรึกษาแพทย์และตรวจเลือด (fasting glucose / HbA1c)").

(** [advice.append(s)] *)
Definition append (advice : list string) (s : string) : list string :=
  advice ++ [s].

Definition health_advice (glucose bmi blood age : option Q)
    (insulin_provided skin_provided : bool) : list string :=
  let advice := [] in
  let advice :=
    match bmi with
    | Some bmi =>
        if PyNum.geb bmi 30 then
          append advice "น้ำหนักเกิน/อ้วน: แนะนำลดน้ำหนักอย่างค่อยเป็นค่อยไป (ปรับอาหาร คุมปริมาณแคลอรี และออกกำลังกายอย่างน้อย 150 นาที/สัปดาห์)"
        else if PyNum.geb bmi 25 then
          append advice "น้ำหนักเกิน: พิจารณาปรับพฤติกรรมการกินและออกกำลังกายเพื่อไม่ให้เพิ่มมากขึ้น"
        else
          append advice "น้ำหนักในเกณฑ์ดี: รักษาระดับความแข็งแรงและโภชนาการที่สมดุล"
    | None => advice
    end in
  let advice :=
    match glucose with
    | Some glucose =>
        if PyNum.geb glucose 200 then
          append advice "ค่าน้ำตาลสูงมาก — ควรรีบตรวจเลือดและปรึกษาแพทย์"
        else if PyNum.geb glucose 140 then
          append advice "ค่าน้ำตาลสูง (อาจเป็น pre-diabetes) — แนะนำปรับพฤติกรรมและตรวจซ้ำ"
        else
          append advice "ค่าน้ำตาลในช่วงปกติ (ตามที่กรอก)"
    | None => advice
    end in
  let advice :=
    match blood with
    | Some blood =>
        if PyNum.geb blood 120 then
          append advice "ความดันค่อนข้างสูง: ควรติดตามความดันและปรับพฤติกรรม (ลดเค็ม/ออกกำลังกาย)"
        else advice
    | None => advice
    end in
  let advice :=
    if negb insulin_provided || negb skin_provided then
      append advice "ข้อมูลอินซูลิน/ความหนาผิวหนังไม่ครบ — หากต้องการการประเมินละเอียด ควรตรวจทางการแพทย์เพื่อหาค่าจริง"
    else advice in
  let advice :=
    match age with
    | Some age =>
        if PyNum.geb age 60 then
          append advice "อายุมากกว่า 60 ปี — ควรตรวจสุขภาพเป็นประจำความเสี่ยงโรคระบบเมตาบอลิซึมสูงขึ้น"
        else advice
    | None => advice
    end in
  advice.

(* ====================================================================== *)
(** ** The Streamlit page *)
(* ====================================================================== *)

(** The dictionary shown under the summary heading (lines 159-171). *)
Record summary : Type := Summary {
  s_Glucose : Q;
  s_BMI : Q;
  s_Age : Z;
  s_BloodPressure : Q;
  s_Insulin_used : Q;
  s_DPF : Q;
  s_SkinThickness_used : Q;
  s_Insulin_provided : bool;
  s_Skin_provided : bool
}.

(** The calls to the Streamlit API made once the form is submitted.
    [st_metric] carries the probability itself; the page shows it with two
    decimals. *)
Inductive st_call : Type :=
| st_subheader (body : string)
| st_write_dict (d : summary)
| st_write (body : string)
| st_markdown (body : string)
| st_metric (label : string) (value : Q) (help : string)
| st_success (body : string)
| st_warning (body : string)
| st_error (body : string)
| st_info (body : string).

(** The values of the form widgets when the script runs.  Widgets whose
    bounds are integers return an [int], the others a [float]; an optional
    input whose checkbox is not ticked is [None]. *)
Module Form.
Record t : Type := Make {
  age : Z;
  pregnancies : Z;
  weight : Q;
  height : Q;
  glucose : Z;
  blood : Z;
  skin : option Z;
  insulin : option Z;
  dpf_label : string
}.
End Form.

(** The variables bound by lines 140-156 of the submit block. *)
Record locals : Type := Locals {
  glucose : Q;
  blood : Q;
  weight : Q;
  height : Q;
  bmi : Q;
  insulin_used : Q;
  skin_used : Q;
  insulin_provided_flag : bool;
  skin_provided_flag : bool;
  feature_vector : list (list Q)
}.

(** What a run of the script leaves behind: the calls made to the page, in
    order, and the variables of the submit block once they are bound. *)
Record world : Type := World {
  page : list st_call;
  vars : option locals
}.

Definition fresh : world := World [] None.

(** A piece of script: it transforms the world and ends with a value or
    with an exception.  What was drawn before an exception stays drawn. *)
Definition St (A : Type) : Type := world -> result A * world.

Definition ret {A} (a : A) : St A := fun w => (Ok a, w).

Definition bind {A B} (m : St A) (k : A -> St B) : St B :=
  fun w =>
    match m w with
    | (Ok a, w') => k a w'
    | (Raise e, w') => (Raise e, w')
    end.

(** A fallible expression evaluated inside the script. *)
Definition lift {A} (r : result A) : St A := fun w => (r, w).

(** One call to the Streamlit API. *)
Definition st (c : st_call) : St unit :=
  fun w => (Ok tt, World (page w ++ [c]) (vars w)).

(** The assignments of lines 140-156 taking effect.  Those lines never
    raise (see [submit_prepare_ok]), so binding their variables together is
    the same as binding them one by one. *)
Definition assign (v : locals) : St unit :=
  fun w => (Ok tt, World (page w) (Some v)).

(** [try: body / except Exception as e: handler e].  An exception that is
    not an instance of [Exception] passes through. *)
Definition try_except {A} (body : St A) (handler : exn -> St A) : St A :=
  fun w =>
    match body w with
    | (Ok a, w') => (Ok a, w')
    | (Raise e, w') =>
        if is_Exception e then handler e w' else (Raise e, w')
    end.

(** [for a in l: body a] *)
Fixpoint for_each {A} (l : list A) (body : A -> St unit) : St unit :=
  match l with
  | [] => ret tt
  | a :: l' => bind (body a) (fun _ => for_each l' body)
  end.

Declare Scope st_scope.
Delimit Scope st_scope with st.
Notation "x <- m ;; k" := (bind m (fun x => k))
  (at level 61, m at next level, right associativity) : st_scope.
Notation "m ;; k" := (bind m (fun _ => k))
  (at level 61, right associativity) : st_scope.
Local Open Scope st_scope.

(** [x is not None] *)
Definition is_not_None {A} (x : option A) : bool :=
  match x with Some _ => true | None => false end.

(** Lines 144-145: the body-mass index from weight (kg) and height (cm),
    in exact arithmetic. *)
Definition compute_bmi (weight height : Q) : result Q :=
  let? height_m := py_div height 100.0 in
  let? bmi := py_div weight (height_m ^ 2) in
  let bmi := PyNum.round bmi 2 in
  let '(minv, maxv) := RANGES k_bmi in
  Ok (PyNum.np_clip bmi minv maxv).

(** Lines 144-145 as Python evaluates them, in binary64. *)
Definition compute_bmi64 (weight height : PyFloat.float)
  : result PyFloat.float :=
  let? height_m := py_fdiv height (f64 100.0) in
  let? square := py_fpow2 height_m in
  let? bmi := py_fdiv weight square in
  let bmi := PyFloat.round bmi 2 in
  let '(minv, maxv) := RANGES k_bmi in
  Ok (PyFloat.np_clip bmi (f64 minv) (f64 maxv)).



(** Lines 140-156: validation, clipping, BMI, optional inputs and the
    feature vector. *)
Definition submit_prepare (f : Form.t) (dpf : Q) : result locals :=
  (* validation & clipping (for safety) *)
  let glucose := clip_to (inject_Z (Form.glucose f)) k_glucose in
  let blood := clip_to (inject_Z (Form.blood f)) k_blood in
  let weight := clip_to (Form.weight f) k_weight in
  let height := clip_to (Form.height f) k_height in
  let? bmi := compute_bmi weight height in
  (* handle optional: use median fallbacks if missing *)
  let insulin_used :=
    match Form.insulin f with
    | Some insulin => inject_Z insulin
    | None => MEDIAN_FALLBACKS k_Insulin
    end in
  let skin_used :=
    match Form.skin f with
    | Some skin => inject_Z skin
    | None => MEDIAN_FALLBACKS k_SkinThickness
    end in
  let insulin_provided_flag := is_not_None (Form.insulin f) in
  let skin_provided_flag := is_not_None (Form.skin f) in
  let insulin_used := clip_to insulin_used k_insulin in
  let skin_used := clip_to skin_used k_skin in
  let feature_vector :=
    [[glucose; bmi; inject_Z (Form.age f); blood; insulin_used; dpf;
      skin_used]] in
  Ok (Locals glucose blood weight height bmi insulin_used skin_used
        insulin_provided_flag skin_provided_flag feature_vector).

(** Lines 176-183: the probability of the positive class, from
    [predict_proba] when the object has it, else the label from [predict]
    taken as a probability. *)
Definition predict_prob (model : classifier) (feature_vector : list (list Q))
  : result Q :=
  match predict_proba model with
  | Some predict_proba =>
      (* probability if supported *)
      let? out := predict_proba feature_vector in
      let? row := py_index (returns model) out 0 in
      py_index (returns model) row 1
  | None =>
      (* fallback: use predict and convert to 0/1 *)
      let? out := predict model feature_vector in
      let? pred := py_index (returns model) out 0 in
      Ok pred
  end.

(** Lines 158-217: the summary, then the prediction and the advice, or the
    error shown in their place. *)
Definition submit_render (model : option classifier) (f : Form.t) (dpf : Q)
    (v : locals) : St unit :=
  st (st_subheader "สรุปข้อมูลที่ใช้ในการประเมิน") ;;
  st (st_write_dict
        (Summary (glucose v) (bmi v) (Form.age f) (blood v) (insulin_used v)
           dpf (skin_used v) (insulin_provided_flag v)
           (skin_provided_flag v))) ;;
  match model with
  | None =>
      st (st_error "ไม่สามารถทำนายได้เนื่องจากไม่มีโมเดล (Diabetset.pkl) ใน repository. อัปโหลดโมเดลแล้วรีเฟรชหน้าเว็บ")
  | Some model =>
      try_except
        (prob <- lift (predict_prob model (feature_vector v)) ;;
         let '(risk_label, risk_msg) := risk_level_from_prob prob in
         st (st_markdown "### ผลการประเมิน") ;;
         st (st_metric "ความเสี่ยง (probability)" prob
               "ความน่าจะเป็นที่โมเดลประเมินว่าจะเป็นเบาหวาน") ;;
         (if String.eqb risk_label "ต่ำ" then
            st (st_success ("ระดับความเสี่ยง: " ++ risk_label ++ " — " ++ risk_msg))
          else if String.eqb risk_label "ปานกลาง" then
            st (st_warning ("ระดับความเสี่ยง: " ++ risk_label ++ " — " ++ risk_msg))
          else
            st (st_error ("ระดับความเสี่ยง: " ++ risk_label ++ " — " ++ risk_msg))) ;;
         (* Detailed health advice *)
         st (st_markdown "### คำแนะนำสุขภาพ (เบื้องต้น)") ;;
         let adv_list :=
           health_advice (Some (glucose v)) (Some (bmi v)) (Some (blood v))
             (Some (inject_Z (Form.age f))) (insulin_provided_flag v)
             (skin_provided_flag v) in
         for_each adv_list (fun a => st (st_write ("- " ++ a))) ;;
         (* Extra targeted suggestions based on risk *)
         st (st_markdown "#### ข้อแนะนำเพิ่มเติมตามระดับความเสี่ยง") ;;
         (if PyNum.geb prob 0.6 then
            st (st_write "- ควรไปพบแพทย์เพื่อทำการตรวจระดับน้ำตาล (Fasting glucose, HbA1c) และรับคำปรึกษา") ;;
            st (st_write "- หากยืนยันมีภาวะ pre-diabetes/diabetes แพทย์จะให้แนวทางการจัดการ (ยา/โภชนาการ/การออกกำลังกาย)")
          else if PyNum.geb prob 0.3 then
            st (st_write "- ควรปรับพฤติกรรม: ลดน้ำตาล/ลดแป้ง น้ำตาลผลไม้ ควบคุมปริมาณแคลอรี") ;;
            st (st_write "- เริ่มออกกำลังกายแบบแอโรบิค 150 นาที/สัปดาห์ และเพิ่มการฝึกความแข็งแรง 2 วัน/สัปดาห์")
          else
            st (st_write "- รักษาพฤติกรรมที่ดีต่อสุขภาพต่อไปและตรวจสุขภาพเป็นประจำ")) ;;
         (* Remind about optional values *)
         (if negb (insulin_provided_flag v) || negb (skin_provided_flag v) then
            st (st_info "หมายเหตุ: เนื่องจากไม่ได้กรอกค่า Insulin หรือ SkinThickness ระบบใช้ค่าประมาณในการประเมิน ผลลัพธ์อาจไม่แม่นยำเท่าการมีค่าจริง")
          else ret tt))
        (fun e => st (st_error ("เกิดข้อผิดพลาดขณะทำนาย: " ++ exn_str e)))
  end.

(** [if submit:] -- lines 138-217. *)
Definition submit_block (model : option classifier) (f : Form.t) (dpf : Q)
  : St unit :=
  v <- lift (submit_prepare f dpf) ;;
  assign v ;;
  submit_render model f dpf v.

(** One run of the script from the family-history lookup (line 134) on.
    The page header and the widgets above it only draw the form. *)
Definition script (model : option classifier) (f : Form.t) (submit : bool)
  : St unit :=
  dpf <- lift (dict_getitem DPF_MAP (Form.dpf_label f)) ;;
  if submit then submit_block model f dpf else ret tt.

(** Run a piece of script on a fresh page. *)
Definition run {A} (m : St A) : result A * world := m fresh.

(** Lines 96-101: load the model and tell the user how it went.
    [if model_err:] holds for a string that is not empty.  The fixed text
    drawn around it (title, introduction, form headings) is left out of the
    log. *)
Definition load_and_report (o : load_outcome) : St (option classifier) :=
  let '(model, model_err) := load_model MODEL_FILENAME o in
  match model_err with
  | Some (String _ _ as model_err) => st (st_warning model_err)
  | _ => st (st_success "โมเดลโหลดสำเร็จ — พร้อมใช้งาน")
  end ;;
  ret model.

(** One run of the whole script: the model is loaded, the form is read,
    and the submit block runs when the button was pressed. *)
Definition app (o : load_outcome) (f : Form.t) (submit : bool) : St unit :=
  model <- load_and_report o ;;
  script model f submit.

(* ====================================================================== *)
(** ** Specification-side vocabulary *)
(* ====================================================================== *)

(** The clip of the specification: [max(min, min(value, max))]. *)
Definition spec_clip (value min max : Q) : Q := Qmax min (Qmin value max).

(** [lo <= x <= hi] *)
Definition within (x lo hi : Q) : Prop := lo <= x /\ x <= hi.





(** The six bounded entries of a feature vector lie in their declared
    ranges. *)
Definition fv_within_ranges (fv : list (list Q)) : Prop :=
  match fv with
  | [[glucose; bmi; age; blood; insulin_used; _; skin_used]] =>
      within glucose 40 300 /\ within blood 40 140 /\ within bmi 10 60 /\
      within insulin_used 10 400 /\ within skin_used 5 80 /\
      within age 10 100
  | _ => False
  end.


(** The message shown when no classifier was loaded. *)
Definition msg_model_unavailable : string :=
  "ไม่สามารถทำนายได้เนื่องจากไม่มีโมเดล (Diabetset.pkl) ใน repository. อัปโหลดโมเดลแล้วรีเฟรชหน้าเว็บ".

(** The run stopped before line 156: no feature vector was assembled. *)
Definition stops_before_assembly (w : world) : Prop := vars w = None.

(** The summary of lines 159-171 for the variables [v]. *)
Definition summary_of (f : Form.t) (dpf : Q) (v : locals) : summary :=
  Summary (glucose v) (bmi v) (Form.age f) (blood v) (insulin_used v) dpf
    (skin_used v) (insulin_provided_flag v) (skin_provided_flag v).

(** A piece of script that draws but binds no variable. *)
Definition keeps_vars {A} (m : St A) : Prop :=
  forall w, vars (snd (m w)) = vars w.

(** The call that the script makes on the classifier [m], handing it [fv]:
    [predict_proba] when the object has it, else [predict]. *)
Definition classifier_raises (m : classifier) (fv : list (list Q)) (e : exn)
  : Prop :=
  match predict_proba m with
  | Some predict_proba => predict_proba fv = Raise e
  | None => predict m fv = Raise e
  end.

(** The model did not load: the file is missing or loading it raised. *)
Definition load_failed (o : load_outcome) : Prop :=
  o = FileMissing \/ exists e, o = LoadRaises e.

(** A classifier whose positive-class probability is always one half. *)
Definition stub_half : classifier :=
  Classifier (Some (fun _ => Ok [[0.5; 0.5]])) (fun _ => Ok [1]) NdArray.

(** The three risk tiers, each with its message. *)
Definition tier_Low : string * string :=
  ("ต่ำ", "ความเสี่ยงต่ำ แต่ควรดูแลสุขภาพอย่างสม่ำเสมอ").
Definition tier_Medium : string * string :=
  ("ปานกลาง", "ความเสี่ยงปานกลาง — แนะนำตรวจสุขภาพเพิ่มเติมและปรับพฤติกรรม").
Definition tier_High : string * string :=
  ("สูง", "ความเสี่ยงสูง — ควรปรึกษาแพทย์และตรวจเลือด (fasting glucose / HbA1c)").

(** The advisory lines, by what they are about. *)
Definition msg_obesity : string :=
  "น้ำหนักเกิน/อ้วน: แนะนำลดน้ำหนักอย่างค่อยเป็นค่อยไป (ปรับอาหาร คุมปริมาณแคลอรี และออกกำลังกายอย่างน้อย 150 นาที/สัปดาห์)".
Definition msg_overweight : string :=
  "น้ำหนักเกิน: พิจารณาปรับพฤติกรรมการกินและออกกำลังกายเพื่อไม่ให้เพิ่มมากขึ้น".
Definition msg_healthy_weight : string :=
  "น้ำหนักในเกณฑ์ดี: รักษาระดับความแข็งแรงและโภชนาการที่สมดุล".
Definition msg_glucose_urgent : string :=
  "ค่าน้ำตาลสูงมาก — ควรรีบตรวจเลือดและปรึกษาแพทย์".
Definition msg_glucose_prediabetes : string :=
  "ค่าน้ำตาลสูง (อาจเป็น pre-diabetes) — แนะนำปรับพฤติกรรมและตรวจซ้ำ".
Definition msg_glucose_normal : string :=
  "ค่าน้ำตาลในช่วงปกติ (ตามที่กรอก)".
Definition msg_blood_pressure : string :=
  "ความดันค่อนข้างสูง: ควรติดตามความดันและปรับพฤติกรรม (ลดเค็ม/ออกกำลังกาย)".
Definition msg_data_completeness : string :=
  "ข้อมูลอินซูลิน/ความหนาผิวหนังไม่ครบ — หากต้องการการประเมินละเอียด ควรตรวจทางการแพทย์เพื่อหาค่าจริง".
Definition msg_age : string :=
  "อายุมากกว่า 60 ปี — ควรตรวจสุขภาพเป็นประจำความเสี่ยงโรคระบบเมตาบอลิซึมสูงขึ้น".

(** The weight advisory that the specification gives a BMI. *)
Inductive weight_advisory (bmi : Q) : string -> Prop :=
| weight_obesity : 30 <= bmi -> weight_advisory bmi msg_obesity
| weight_overweight :
    25 <= bmi -> bmi < 30 -> weight_advisory bmi msg_overweight
| weight_healthy : bmi < 25 -> weight_advisory bmi msg_healthy_weight.

(** The glucose advisory that the specification gives a glucose level. *)
Inductive glucose_advisory (glucose : Q) : string -> Prop :=
| glucose_urgent : 200 <= glucose -> glucose_advisory glucose msg_glucose_urgent
| glucose_prediabetes :
    140 <= glucose -> glucose < 200 ->
    glucose_advisory glucose msg_glucose_prediabetes
| glucose_normal : glucose < 140 -> glucose_advisory glucose msg_glucose_normal.

(** An advisory that fires only under a condition: the one line when the
    condition holds, nothing otherwise. *)
Inductive fires_iff (cond : Prop) (msg : string) : list string -> Prop :=
| fires : cond -> fires_iff cond msg [msg]
| silent : ~ cond -> fires_iff cond msg [].

(** The bounds that the form widgets put on the values they return
    (lines 107-127). *)
Definition widget_bounds (f : Form.t) : Prop :=
  (10 <= Form.age f <= 100)%Z /\
  (0 <= Form.pregnancies f <= 20)%Z /\
  within (Form.weight f) 20.0 250.0 /\
  within (Form.height f) 100.0 220.0 /\
  (40 <= Form.glucose f <= 300)%Z /\
  (40 <= Form.blood f <= 140)%Z /\
  (forall skin, Form.skin f = Some skin -> (5 <= skin <= 80)%Z) /\
  (forall insulin, Form.insulin f = Some insulin -> (10 <= insulin <= 400)%Z).

(** The form [f] with another number of pregnancies. *)
Definition with_pregnancies (f : Form.t) (n : Z) : Form.t :=
  Form.Make (Form.age f) n (Form.weight f) (Form.height f) (Form.glucose f)
    (Form.blood f) (Form.skin f) (Form.insulin f) (Form.dpf_label f).

(** A list of lines without a repeated line, as a test. *)
Fixpoint distinctb (l : list string) : bool :=
  match l with
  | [] => true
  | x :: l' => negb (existsb (String.eqb x) l') && distinctb l'
  end.

(** The nine advisory lines, in the order in which they can appear. *)
Definition advisory_lines : list string :=
  [msg_obesity; msg_overweight; msg_healthy_weight; msg_glucose_urgent;
   msg_glucose_prediabetes; msg_glucose_normal; msg_blood_pressure;
   msg_data_completeness; msg_age].

(** The text of the tier banner (lines 189, 191, 193). *)
Definition banner_text (t : string * string) : string :=
  "ระดับความเสี่ยง: " ++ fst t ++ " — " ++ snd t.

(** The extra suggestions of lines 204-210. *)
Definition msg_suggest_high_1 : string :=
  "- ควรไปพบแพทย์เพื่อทำการตรวจระดับน้ำตาล (Fasting glucose, HbA1c) และรับคำปรึกษา".
Definition msg_suggest_high_2 : string :=
  "- หากยืนยันมีภาวะ pre-diabetes/diabetes แพทย์จะให้แนวทางการจัดการ (ยา/โภชนาการ/การออกกำลังกาย)".
Definition msg_suggest_medium_1 : string :=
  "- ควรปรับพฤติกรรม: ลดน้ำตาล/ลดแป้ง น้ำตาลผลไม้ ควบคุมปริมาณแคลอรี".
Definition msg_suggest_medium_2 : string :=
  "- เริ่มออกกำลังกายแบบแอโรบิค 150 นาที/สัปดาห์ และเพิ่มการฝึกความแข็งแรง 2 วัน/สัปดาห์".
Definition msg_suggest_low : string :=
  "- รักษาพฤติกรรมที่ดีต่อสุขภาพต่อไปและตรวจสุขภาพเป็นประจำ".

(** The note of line 214 about estimated optional values. *)
Definition msg_note_estimated : string :=
  "หมายเหตุ: เนื่องจากไม่ได้กรอกค่า Insulin หรือ SkinThickness ระบบใช้ค่าประมาณในการประเมิน ผลลัพธ์อาจไม่แม่นยำเท่าการมีค่าจริง".

(** The message shown when the prediction raises. *)
Definition msg_prediction_failed (e : exn) : string :=
  "เกิดข้อผิดพลาดขณะทำนาย: " ++ exn_str e.

(** The banner and the extra suggestions that go with a probability: the
    green banner and one suggestion below 0.30, the yellow banner and two
    suggestions from 0.30 to below 0.60, the red banner and two suggestions
    from 0.60 on. *)
Inductive assessed (p : Q) : st_call -> list st_call -> Prop :=
| assessed_low :
    p < 0.30 ->
    assessed p (st_success (banner_text tier_Low)) [st_write msg_suggest_low]
| assessed_medium :
    0.30 <= p -> p < 0.60 ->
    assessed p (st_warning (banner_text tier_Medium))
      [st_write msg_suggest_medium_1; st_write msg_suggest_medium_2]
| assessed_high :
    0.60 <= p ->
    assessed p (st_error (banner_text tier_High))
      [st_write msg_suggest_high_1; st_write msg_suggest_high_2].

(** The two calls that open every submission: the heading and the summary
    of the values used. *)
Definition summary_calls (f : Form.t) (dpf : Q) (v : locals) : list st_call :=
  [st_subheader "สรุปข้อมูลที่ใช้ในการประเมิน";
   st_write_dict (summary_of f dpf v)].

(** The calls that draw an assessment: probability, banner, advice lines,
    suggestions and, when an optional input was missing, the note. *)
Definition assessment_calls (f : Form.t) (v : locals) (p : Q)
    (banner : st_call) (suggestions : list st_call) : list st_call :=
  ([st_markdown "### ผลการประเมิน";
    st_metric "ความเสี่ยง (probability)" p
      "ความน่าจะเป็นที่โมเดลประเมินว่าจะเป็นเบาหวาน";
    banner;
    st_markdown "### คำแนะนำสุขภาพ (เบื้องต้น)"]
   ++ map (fun a => st_write ("- " ++ a))
        (health_advice (Some (glucose v)) (Some (bmi v)) (Some (blood v))
           (Some (inject_Z (Form.age f))) (insulin_provided_flag v)
           (skin_provided_flag v))
   ++ [st_markdown "#### ข้อแนะนำเพิ่มเติมตามระดับความเสี่ยง"]
   ++ suggestions
   ++ (if negb (insulin_provided_flag v) || negb (skin_provided_flag v)
       then [st_info msg_note_estimated] else []))%list.

(* ====================================================================== *)
(** ** Facts about Python numbers *)
(* ====================================================================== *)

Module PyNumFacts.
Import PyNum.

Lemma ltb_true (x y : Q) : ltb x y = true <-> x < y.
Proof.
  unfold ltb. rewrite Qlt_alt.
  destruct (x ?= y); split; intro H; congruence.
Qed.

Lemma ltb_false (x y : Q) : ltb x y = false <-> y <= x.
Proof.
  rewrite <- not_true_iff_false, ltb_true. split.
  - apply Qnot_lt_le.
  - apply Qle_not_lt.
Qed.

Lemma geb_true (x y : Q) : geb x y = true <-> y <= x.
Proof.
  rewrite <- ltb_false. unfold geb, ltb.
  destruct (x ?= y); split; intro H; congruence.
Qed.

Lemma geb_false (x y : Q) : geb x y = false <-> x < y.
Proof.
  rewrite <- ltb_true. unfold geb, ltb.
  destruct (x ?= y); split; intro H; congruence.
Qed.

Lemma eqb_true (x y : Q) : eqb x y = true <-> x == y.
Proof.
  unfold eqb. rewrite Qeq_alt.
  destruct (x ?= y); split; intro H; congruence.
Qed.

Lemma eqb_false (x y : Q) : eqb x y = false <-> ~ x == y.
Proof.
  rewrite <- eqb_true. destruct (eqb x y); split; intro H; congruence.
Qed.

(** [np_clip] stays between its bounds when they are ordered. *)
Lemma np_clip_within (a lo hi : Q) : lo <= hi -> within (np_clip a lo hi) lo hi.
Proof.
  intro Hle. unfold within, np_clip, np_minimum, np_maximum. split.
  - apply Q.min_glb; [exact Hle | apply Q.le_max_r].
  - apply Q.le_min_l.
Qed.

(** [np_clip] leaves a value that is already between the bounds alone. *)
Lemma np_clip_id (a lo hi : Q) : within a lo hi -> np_clip a lo hi == a.
Proof.
  intros [Hlo Hhi]. unfold np_clip, np_minimum, np_maximum.
  rewrite (Q.max_l a lo Hlo). apply Q.min_r. exact Hhi.
Qed.

(** [np_clip] and the clip of the specification agree on ordered bounds. *)
Lemma np_clip_spec (a lo hi : Q) : lo <= hi -> np_clip a lo hi == spec_clip a lo hi.
Proof.
  intro Hle. unfold np_clip, np_minimum, np_maximum, spec_clip.
  destruct (Qlt_le_dec a lo) as [Hlt | Hge].
  - assert (Ha : a <= lo) by (apply Qlt_le_weak; exact Hlt).
    rewrite (Q.max_r a lo Ha).
    rewrite (Q.min_r hi lo Hle).
    assert (Hah : a <= hi) by (apply Qle_trans with lo; assumption).
    rewrite (Q.min_l a hi Hah).
    rewrite (Q.max_l lo a Ha). reflexivity.
  - rewrite (Q.max_l a lo Hge).
    rewrite Q.min_comm.
    symmetry. apply Q.max_r.
    apply Q.min_glb; assumption.
Qed.

End PyNumFacts.

Module RoundFacts.
Import PyNum.

(** Rounding to an integer moves a number by at most one half. *)
Lemma round_half_even_close (x : Q) :
  Qabs (inject_Z (round_half_even x) - x) <= 1 # 2.
Proof.
  unfold round_half_even.
  pose proof (Qfloor_le x) as Hlo.
  pose proof (Qlt_floor x) as Hhi.
  rewrite inject_Z_plus in Hhi. change (inject_Z 1) with 1 in Hhi.
  set (k := Qfloor x) in *.
  apply Qabs_Qle_condition.
  destruct (x - inject_Z k ?= 1 # 2) eqn:Hc.
  - apply Qeq_alt in Hc.
    destruct (Z.even k); [| rewrite inject_Z_plus; change (inject_Z 1) with 1];
      split; lra.
  - apply Qlt_alt in Hc. split; lra.
  - apply Qgt_alt in Hc. rewrite inject_Z_plus. change (inject_Z 1) with 1.
    split; lra.
Qed.

Lemma pow10_pos (d : nat) : 0 < pow10 d.
Proof.
  unfold pow10. change 0 with (inject_Z 0). rewrite <- Zlt_Qlt.
  apply Z.pow_pos_nonneg; lia.
Qed.


End RoundFacts.

Module PyFloatFacts.
Import PyFloat.

Lemma SFcompare_antisym (x y : float) :
  SFcompare y x = option_map CompOpp (SFcompare x y).
Proof.
  destruct x as [[] | [] | | [] m1 e1], y as [[] | [] | | [] m2 e2];
    simpl; try reflexivity;
    rewrite (Z.compare_antisym e1 e2);
    destruct (e1 ?= e2)%Z; simpl; try reflexivity;
    rewrite (Pos.compare_cont_antisym m1 m2 Eq); simpl;
    try rewrite CompOpp_involutive; reflexivity.
Qed.


Lemma compare_refl (x : float) :
  is_nan x = false -> SFcompare x x = Some Eq.
Proof.
  intro H. pose proof (SFcompare_antisym x x) as A.
  destruct x as [[] | [] | | [] m e]; try discriminate H; try reflexivity;
    simpl in *; rewrite Z.compare_refl;
    change (Pos.compare_cont Eq m m) with (Pos.compare m m);
    rewrite Pos.compare_refl; reflexivity.
Qed.








Lemma eqb_refl (x : float) : is_nan x = false -> eqb x x = true.
Proof. intro H. unfold eqb, SFeqb. rewrite (compare_refl x H). reflexivity. Qed.












End PyFloatFacts.

(* ====================================================================== *)
(** ** RangeClipper: [clip_value] *)
(* ====================================================================== *)

(** Every declared range has its lower bound below its upper bound. *)
Lemma RANGES_ordered (k : range_key) : fst (RANGES k) <= snd (RANGES k).
Proof. destruct k; simpl; lra. Qed.

Lemma clip_to_within (v : Q) (k : range_key) :
  within (clip_to v k) (fst (RANGES k)) (snd (RANGES k)).
Proof.
  pose proof (RANGES_ordered k) as Hk. unfold clip_to, clip_value.
  destruct (RANGES k) as [minv maxv]. simpl in *.
  apply PyNumFacts.np_clip_within. exact Hk.
Qed.

Lemma clip_to_id (v : Q) (k : range_key) :
  within v (fst (RANGES k)) (snd (RANGES k)) -> clip_to v k == v.
Proof.
  unfold clip_to, clip_value. destruct (RANGES k) as [minv maxv]. simpl.
  apply PyNumFacts.np_clip_id.
Qed.

(** C9.  For every value [v] and bounds [lo <= hi], [clip_value v lo hi]
    equals [max(lo, min(v, hi))], lies in [[lo, hi]], equals [v] whenever
    [lo <= v <= hi], and clipping a second time changes nothing.  The
    function is total: it returns a number on every input. *)
Theorem clip_value_contract (v lo hi : Q) :
  lo <= hi ->
  clip_value v lo hi == spec_clip v lo hi /\
  within (clip_value v lo hi) lo hi /\
  (within v lo hi -> clip_value v lo hi == v) /\
  clip_value (clip_value v lo hi) lo hi == clip_value v lo hi.
Proof.
  intro Hle. unfold clip_value.
  pose proof (PyNumFacts.np_clip_within v lo hi Hle) as Hin.
  repeat split.
  - apply PyNumFacts.np_clip_spec. exact Hle.
  - apply Hin.
  - apply Hin.
  - apply PyNumFacts.np_clip_id.
  - apply PyNumFacts.np_clip_id. exact Hin.
Qed.

(** The bounds must be ordered for the two clips to agree: with the bounds
    swapped, [np.clip] returns its last argument and the clip of the
    specification its first bound. *)
Remark clip_value_swapped_bounds :
  clip_value 5 10 0 = 0 /\ spec_clip 5 10 0 = 10.
Proof. split; reflexivity. Qed.

Lemma clip_value_contract_witness :
  clip_value 500 40 300 == spec_clip 500 40 300 /\
  within (clip_value 500 40 300) 40 300 /\
  (within 500 40 300 -> clip_value 500 40 300 == 500) /\
  clip_value (clip_value 500 40 300) 40 300 == clip_value 500 40 300.
Proof.
  apply (clip_value_contract 500 40 300). unfold Qle. simpl. lia.
Defined.

(* ====================================================================== *)
(** ** RiskBucketizer: [risk_level_from_prob] *)
(* ====================================================================== *)

Lemma risk_low (p : Q) : p < 0.30 -> risk_level_from_prob p = tier_Low.
Proof.
  intro H. unfold risk_level_from_prob.
  apply PyNumFacts.ltb_true in H. rewrite H. reflexivity.
Qed.

Lemma risk_medium (p : Q) :
  0.30 <= p -> p < 0.60 -> risk_level_from_prob p = tier_Medium.
Proof.
  intros H1 H2. unfold risk_level_from_prob.
  apply PyNumFacts.ltb_false in H1. apply PyNumFacts.ltb_true in H2.
  rewrite H1, H2. reflexivity.
Qed.

Lemma risk_high (p : Q) : 0.60 <= p -> risk_level_from_prob p = tier_High.
Proof.
  intro H. unfold risk_level_from_prob.
  assert (H1 : 0.30 <= p) by lra.
  apply PyNumFacts.ltb_false in H, H1.
  rewrite H, H1. reflexivity.
Qed.

(** C3.  [risk_level_from_prob p] is the Low tier with its message when
    [p < 0.30], the Medium tier with its message when [0.30 <= p < 0.60] and
    the High tier with its message when [p >= 0.60]; at 0.29 it is Low, at
    0.30 Medium, at 0.59 Medium and at 0.60 High, so each threshold belongs
    to the upper bucket. *)
Theorem bucketize_thresholds :
  (forall p, p < 0.30 -> risk_level_from_prob p = tier_Low) /\
  (forall p, 0.30 <= p /\ p < 0.60 -> risk_level_from_prob p = tier_Medium) /\
  (forall p, 0.60 <= p -> risk_level_from_prob p = tier_High) /\
  risk_level_from_prob 0.29 = tier_Low /\
  risk_level_from_prob 0.30 = tier_Medium /\
  risk_level_from_prob 0.59 = tier_Medium /\
  risk_level_from_prob 0.60 = tier_High.
Proof.
  split; [exact risk_low |].
  split; [intros p [H1 H2]; apply risk_medium; assumption |].
  split; [exact risk_high |].
  repeat split; reflexivity.
Qed.

Lemma bucketize_thresholds_witness :
  risk_level_from_prob 0.10 = tier_Low /\
  risk_level_from_prob 0.45 = tier_Medium /\
  risk_level_from_prob 0.90 = tier_High.
Proof.
  destruct bucketize_thresholds as (HL & HM & HH & _).
  split; [| split].
  - apply HL. unfold Qlt. simpl. lia.
  - apply HM. split; [unfold Qle | unfold Qlt]; simpl; lia.
  - apply HH. unfold Qle. simpl. lia.
Defined.

(** C10.  The bucketizer is total on all numbers, not only on
    probabilities: every input gets one of the three tiers, every
    [p < 0.30] -- so every negative [p] -- gets Low, and every
    [p >= 0.60] -- so every [p > 1] -- gets High.  There is no error
    branch. *)
Theorem bucketize_total (p : Q) :
  (risk_level_from_prob p = tier_Low \/
   risk_level_from_prob p = tier_Medium \/
   risk_level_from_prob p = tier_High) /\
  (p < 0.30 -> risk_level_from_prob p = tier_Low) /\
  (p < 0 -> risk_level_from_prob p = tier_Low) /\
  (0.60 <= p -> risk_level_from_prob p = tier_High) /\
  (1 < p -> risk_level_from_prob p = tier_High).
Proof.
  repeat split.
  - destruct (Qlt_le_dec p 0.30) as [H1 | H1];
      [left; apply risk_low; exact H1 |].
    destruct (Qlt_le_dec p 0.60) as [H2 | H2];
      [right; left; apply risk_medium; assumption |].
    right; right; apply risk_high; exact H2.
  - apply risk_low.
  - intro H. apply risk_low. lra.
  - apply risk_high.
  - intro H. apply risk_high. lra.
Qed.

Lemma bucketize_total_witness :
  risk_level_from_prob (-5) = tier_Low /\ risk_level_from_prob 7 = tier_High.
Proof.
  split.
  - apply (bucketize_total (-5)). unfold Qlt. simpl. lia.
  - apply (bucketize_total 7). unfold Qlt. simpl. lia.
Defined.

(* ====================================================================== *)
(** ** AdviceComposer: [health_advice] *)
(* ====================================================================== *)

Lemma weight_advisory_dec (bmi : Q) :
  weight_advisory bmi
    (if PyNum.geb bmi 30 then msg_obesity
     else if PyNum.geb bmi 25 then msg_overweight else msg_healthy_weight).
Proof.
  destruct (PyNum.geb bmi 30) eqn:H30.
  - apply weight_obesity. apply PyNumFacts.geb_true. exact H30.
  - apply PyNumFacts.geb_false in H30.
    destruct (PyNum.geb bmi 25) eqn:H25.
    + apply weight_overweight; [apply PyNumFacts.geb_true |]; assumption.
    + apply weight_healthy. apply PyNumFacts.geb_false. exact H25.
Qed.

Lemma glucose_advisory_dec (glucose : Q) :
  glucose_advisory glucose
    (if PyNum.geb glucose 200 then msg_glucose_urgent
     else if PyNum.geb glucose 140 then msg_glucose_prediabetes
     else msg_glucose_normal).
Proof.
  destruct (PyNum.geb glucose 200) eqn:H200.
  - apply glucose_urgent. apply PyNumFacts.geb_true. exact H200.
  - apply PyNumFacts.geb_false in H200.
    destruct (PyNum.geb glucose 140) eqn:H140.
    + apply glucose_prediabetes; [apply PyNumFacts.geb_true |]; assumption.
    + apply glucose_normal. apply PyNumFacts.geb_false. exact H140.
Qed.

Lemma fires_iff_geb (x t : Q) (msg : string) :
  fires_iff (t <= x) msg (if PyNum.geb x t then [msg] else []).
Proof.
  destruct (PyNum.geb x t) eqn:H.
  - apply fires. apply PyNumFacts.geb_true. exact H.
  - apply silent. apply PyNumFacts.geb_false in H. apply Qlt_not_le. exact H.
Qed.

Lemma fires_iff_missing (insulin_provided skin_provided : bool) (msg : string) :
  fires_iff (insulin_provided = false \/ skin_provided = false) msg
    (if negb insulin_provided || negb skin_provided then [msg] else []).
Proof.
  destruct insulin_provided, skin_provided; simpl;
    first [ apply fires; auto; fail
          | apply silent; intros [H | H]; discriminate H ].
Qed.

(** Appending one of several lines is appending the line chosen. *)
Lemma append_choice (c1 c2 : bool) (l : list string) (a b c : string) :
  (if c1 then append l a else if c2 then append l b else append l c) =
  (l ++ [if c1 then a else if c2 then b else c])%list.
Proof. destruct c1, c2; reflexivity. Qed.

(** Appending a line under a condition is appending a list of at most one
    line. *)
Lemma append_when (c : bool) (l : list string) (a : string) :
  (if c then append l a else l) = (l ++ (if c then [a] else []))%list.
Proof. destruct c; [reflexivity | symmetry; apply app_nil_r]. Qed.

(** The list built by the successive appends, written as one
    concatenation. *)
Lemma health_advice_unfold (glucose bmi blood age : Q)
    (insulin_provided skin_provided : bool) :
  health_advice (Some glucose) (Some bmi) (Some blood) (Some age)
    insulin_provided skin_provided =
  ([if PyNum.geb bmi 30 then msg_obesity
    else if PyNum.geb bmi 25 then msg_overweight else msg_healthy_weight;
    if PyNum.geb glucose 200 then msg_glucose_urgent
    else if PyNum.geb glucose 140 then msg_glucose_prediabetes
    else msg_glucose_normal]
   ++ (if PyNum.geb blood 120 then [msg_blood_pressure] else [])
   ++ (if negb insulin_provided || negb skin_provided
       then [msg_data_completeness] else [])
   ++ (if PyNum.geb age 60 then [msg_age] else []))%list.
Proof.
  unfold health_advice.
  rewrite !append_choice, !append_when, <- !app_assoc. reflexivity.
Qed.

(** The nine advisory lines are different lines, so a line of the result
    tells which advisory it is. *)
Lemma advisories_distinct :
  NoDup [msg_obesity; msg_overweight; msg_healthy_weight; msg_glucose_urgent;
         msg_glucose_prediabetes; msg_glucose_normal; msg_blood_pressure;
         msg_data_completeness; msg_age].
Proof.
  repeat (constructor; [simpl; intuition discriminate |]). constructor.
Qed.

(** C4.  With all four numbers present, [health_advice] returns, in this
    order: exactly one weight advisory (obesity if [bmi >= 30], overweight if
    [25 <= bmi < 30], healthy otherwise), exactly one glucose advisory
    (urgent if [glucose >= 200], pre-diabetes if [140 <= glucose < 200],
    normal otherwise), the blood-pressure advisory iff [blood >= 120], one
    combined data-completeness advisory iff either flag is false, and the age
    advisory iff [age >= 60]; the nine possible lines are pairwise
    different.  For (250, 32, 130, 65, false, true) the result is the five
    lines obesity, urgent glucose, blood pressure, data completeness, age. *)
Theorem health_advice_composition (glucose bmi blood age : Q)
    (insulin_provided skin_provided : bool) :
  (exists (w g : string) (bp dc ag : list string),
     health_advice (Some glucose) (Some bmi) (Some blood) (Some age)
       insulin_provided skin_provided = ([w; g] ++ bp ++ dc ++ ag)%list /\
     weight_advisory bmi w /\
     glucose_advisory glucose g /\
     fires_iff (120 <= blood) msg_blood_pressure bp /\
     fires_iff (insulin_provided = false \/ skin_provided = false)
       msg_data_completeness dc /\
     fires_iff (60 <= age) msg_age ag) /\
  NoDup [msg_obesity; msg_overweight; msg_healthy_weight; msg_glucose_urgent;
         msg_glucose_prediabetes; msg_glucose_normal; msg_blood_pressure;
         msg_data_completeness; msg_age] /\
  health_advice (Some 250) (Some 32) (Some 130) (Some 65) false true =
    [msg_obesity; msg_glucose_urgent; msg_blood_pressure;
     msg_data_completeness; msg_age].
Proof.
  split; [| split; [exact advisories_distinct | reflexivity]].
  rewrite health_advice_unfold.
  do 5 eexists. split; [reflexivity |].
  split; [apply weight_advisory_dec |].
  split; [apply glucose_advisory_dec |].
  split; [apply fires_iff_geb |].
  split; [apply fires_iff_missing | apply fires_iff_geb].
Qed.

(* ====================================================================== *)
(** ** CategoryMapper: [DPF_MAP] *)
(* ====================================================================== *)

(** Looking up a key that the dict does not have raises [KeyError]. *)
Lemma dict_getitem_missing {V} (d : list (string * V)) (key : string) :
  ~ In key (dict_keys d) -> dict_getitem d key = Raise (KeyError key).
Proof.
  induction d as [| [k v] d IH]; simpl; intro Hnot.
  - reflexivity.
  - destruct (String.eqb_spec k key) as [E | NE].
    + exfalso. apply Hnot. left. exact E.
    + apply IH. intro Hin. apply Hnot. right. exact Hin.
Qed.

(** Looking up a key that the dict has returns one of its values. *)
Lemma dict_getitem_present {V} (d : list (string * V)) (key : string) :
  In key (dict_keys d) -> exists v, dict_getitem d key = Ok v /\ In (key, v) d.
Proof.
  induction d as [| [k v] d IH]; simpl; intro Hin.
  - contradiction.
  - destruct (String.eqb_spec k key) as [E | NE].
    + exists v. subst k. split; [reflexivity | left; reflexivity].
    + destruct Hin as [E | Hin]; [contradiction |].
      destruct (IH Hin) as (v' & Hv & Hin').
      exists v'. split; [exact Hv | right; exact Hin'].
Qed.

(** With a label that is not in the table the script stops at line 134,
    before anything of the submit block runs. *)
Lemma script_invalid_label (model : option classifier) (f : Form.t)
    (submit : bool) :
  ~ In (Form.dpf_label f) (dict_keys DPF_MAP) ->
  run (script model f submit) = (Raise (KeyError (Form.dpf_label f)), fresh).
Proof.
  intro H. unfold run, script, bind, lift.
  rewrite (dict_getitem_missing _ _ H). reflexivity.
Qed.

(** C7.  The family-history lookup is a table of exactly five labels:
    no family history gives 0.05, a distant relative 0.5, a parent 1.0,
    parents and siblings 2.0, several relatives 2.5.  Every other label
    makes the lookup fail with an error that names the label ([KeyError]),
    and the script stops there without a value. *)
Theorem DPF_MAP_lookup :
  length DPF_MAP = 5%nat /\
  NoDup (dict_keys DPF_MAP) /\
  dict_getitem DPF_MAP "ไม่มีประวัติในครอบครัว" = Ok 0.05 /\
  dict_getitem DPF_MAP "ญาติห่าง (เช่น ป้า/น้า/อา) เป็น" = Ok 0.5 /\
  dict_getitem DPF_MAP "พ่อหรือแม่เป็น" = Ok 1.0 /\
  dict_getitem DPF_MAP "พ่อแม่ + พี่น้องเป็น" = Ok 2.0 /\
  dict_getitem DPF_MAP "หลายคนในครอบครัวเป็น" = Ok 2.5 /\
  (forall label, In label (dict_keys DPF_MAP) ->
     exists v, dict_getitem DPF_MAP label = Ok v) /\
  (forall label, ~ In label (dict_keys DPF_MAP) ->
     dict_getitem DPF_MAP label = Raise (KeyError label)) /\
  (forall model f submit, ~ In (Form.dpf_label f) (dict_keys DPF_MAP) ->
     run (script model f submit) =
       (Raise (KeyError (Form.dpf_label f)), fresh)).
Proof.
  split; [reflexivity |].
  split; [repeat (constructor; [simpl; intuition discriminate |]);
          constructor |].
  do 5 (split; [reflexivity |]).
  split; [| split].
  - intros label Hin.
    destruct (dict_getitem_present DPF_MAP label Hin) as (v & Hv & _).
    exists v. exact Hv.
  - intros label. apply dict_getitem_missing.
  - exact script_invalid_label.
Qed.

(** The label [Diabetes] is not in the table: its lookup raises, and a run
    of the script with it stops with that error. *)
Lemma DPF_MAP_lookup_witness :
  dict_getitem DPF_MAP "พ่อหรือแม่เป็น" = Ok 1.0 /\
  dict_getitem DPF_MAP "Diabetes" = Raise (KeyError "Diabetes") /\
  run (script None (Form.Make 40 0 70.0 170.0 100 80 None None "Diabetes")
         true) = (Raise (KeyError "Diabetes"), fresh).
Proof.
  destruct DPF_MAP_lookup as (_ & _ & _ & _ & Hparent & _ & _ & _ & Hmiss & Hrun).
  split; [exact Hparent |].
  split.
  - apply Hmiss. simpl. intuition discriminate.
  - apply (Hrun None (Form.Make 40 0 70.0 170.0 100 80 None None "Diabetes")
             true).
    simpl. intuition discriminate.
Defined.

(* ====================================================================== *)
(** ** The submit block: clipping, BMI and the feature vector *)
(* ====================================================================== *)

Lemma py_div_ok (x y : Q) : ~ y == 0 -> py_div x y = Ok (x / y).
Proof.
  intro H. unfold py_div. apply PyNumFacts.eqb_false in H.
  rewrite H. reflexivity.
Qed.

(** The squared height in metres is zero only for a zero height. *)
Lemma square_metres_nonzero (height : Q) :
  ~ height == 0 -> ~ (height / 100.0) ^ 2 == 0.
Proof.
  intros Hh Hz. apply Hh.
  change ((height / 100.0) ^ 2)
    with ((height / 100.0) * (height / 100.0)) in Hz.
  apply Qmult_integral in Hz.
  assert (E : height == (height / 100.0) * 100.0) by (field; discriminate).
  rewrite E. destruct Hz as [Hz | Hz]; rewrite Hz; reflexivity.
Qed.

(** Lines 144-145 succeed for every height but zero. *)
Lemma compute_bmi_ok (weight height : Q) :
  ~ height == 0 ->
  compute_bmi weight height =
    Ok (PyNum.np_clip (PyNum.round (weight / (height / 100.0) ^ 2) 2) 10 60).
Proof.
  intro Hh. unfold compute_bmi.
  rewrite py_div_ok by discriminate. cbn [rbind].
  rewrite py_div_ok by (apply square_metres_nonzero; exact Hh).
  reflexivity.
Qed.

(** A clipped height is at least 100 cm, so it is never zero. *)
Lemma clipped_height_nonzero (h : Q) : ~ clip_to h k_height == 0.
Proof.
  destruct (clip_to_within h k_height) as [Hlo _]. simpl in Hlo.
  intro Hz. rewrite Hz in Hlo. revert Hlo. unfold Qle. simpl. lia.
Qed.

(** Lines 140-156 never raise, and bind these values. *)
Lemma submit_prepare_ok (f : Form.t) (dpf : Q) :
  exists v,
    submit_prepare f dpf = Ok v /\
    glucose v = clip_to (inject_Z (Form.glucose f)) k_glucose /\
    blood v = clip_to (inject_Z (Form.blood f)) k_blood /\
    weight v = clip_to (Form.weight f) k_weight /\
    height v = clip_to (Form.height f) k_height /\
    compute_bmi (weight v) (height v) = Ok (bmi v) /\
    insulin_used v =
      clip_to (match Form.insulin f with
               | Some insulin => inject_Z insulin
               | None => MEDIAN_FALLBACKS k_Insulin
               end) k_insulin /\
    skin_used v =
      clip_to (match Form.skin f with
               | Some skin => inject_Z skin
               | None => MEDIAN_FALLBACKS k_SkinThickness
               end) k_skin /\
    insulin_provided_flag v = is_not_None (Form.insulin f) /\
    skin_provided_flag v = is_not_None (Form.skin f) /\
    feature_vector v =
      [[glucose v; bmi v; inject_Z (Form.age f); blood v; insulin_used v;
        dpf; skin_used v]].
Proof.
  unfold submit_prepare.
  rewrite (compute_bmi_ok _ _ (clipped_height_nonzero (Form.height f))).
  cbn [rbind]. eexists. split; [reflexivity |].
  cbn [glucose blood weight height bmi insulin_used skin_used
       insulin_provided_flag skin_provided_flag feature_vector].
  rewrite (compute_bmi_ok _ _ (clipped_height_nonzero (Form.height f))).
  repeat split; reflexivity.
Qed.

(** The BMI bound by the block is a clipped value. *)
Lemma compute_bmi_within (weight height b : Q) :
  compute_bmi weight height = Ok b -> within b 10 60.
Proof.
  unfold compute_bmi, rbind.
  destruct (py_div height 100.0) as [height_m |]; [| discriminate].
  destruct (py_div weight (height_m ^ 2)) as [raw |]; [| discriminate].
  simpl. intro E. injection E as <-.
  apply PyNumFacts.np_clip_within. unfold Qle. simpl. lia.
Qed.


(** The doubles of some literals: 100.0, 10 and 60 are exact, 0.1 is the
    well-known double below, and 24.22 is approximated to within 2^-49, half
    a unit of the last place. *)
Example f64_literals :
  PyFloat.to_Q (f64 100.0) == 100 /\
  PyFloat.to_Q (f64 10) == 10 /\
  PyFloat.to_Q (f64 60) == 60 /\
  f64 0.1 = S754_finite false 7205759403792794 (-56) /\
  Qabs (PyFloat.to_Q (f64 24.22) - 24.22) <= 2 ^ (-49).
Proof.
  split; [vm_compute; reflexivity |].
  split; [vm_compute; reflexivity |].
  split; [vm_compute; reflexivity |].
  split; [vm_compute; reflexivity |].
  vm_compute. discriminate.
Qed.

(** In binary64 the quotient of line 144 need not round as the exact
    quotient does: 56 kg and 160 cm give exactly 21.875, which rounds to
    21.88 by the ties-to-even rule, but the computed quotient lies just
    below it and rounds to 21.87. *)
Example binary64_rounding :
  compute_bmi64 (f64 56) (f64 160) = Ok (f64 21.87) /\
  (exists r, compute_bmi 56 160 = Ok r /\ r == 21.88) /\
  compute_bmi64 (f64 44.1) (f64 120) = Ok (f64 30.63) /\
  compute_bmi64 (f64 29.548281374999995) (f64 100.5) = Ok (f64 29.26).
Proof.
  split; [vm_compute; reflexivity |].
  split; [eexists; split; [vm_compute; reflexivity | reflexivity] |].
  split; vm_compute; reflexivity.
Qed.



(** An integer is within integer bounds as a number exactly when it is as
    an integer. *)
Lemma within_inject_Z (a lo hi : Z) :
  within (inject_Z a) (inject_Z lo) (inject_Z hi) <-> (lo <= a <= hi)%Z.
Proof. unfold within. rewrite <- !Zle_Qle. reflexivity. Qed.

(** C2.  For every input record, that is, for every form whose values lie
    within the bounds of the widgets that deliver them (lines 107-127), all
    six bounded entries of the feature vector lie in their declared ranges.
    Glucose, blood pressure, BMI, insulin and skin thickness are in range by
    the block's own clipping, whatever was submitted.  The age is not
    clipped by the block: it is in [[10, 100]] exactly when the submitted
    age is, which the widget of line 107 sees to. *)
Theorem feature_ranges (f : Form.t) (dpf : Q) :
  exists v,
    submit_prepare f dpf = Ok v /\
    feature_vector v =
      [[glucose v; bmi v; inject_Z (Form.age f); blood v; insulin_used v;
        dpf; skin_used v]] /\
    within (glucose v) 40 300 /\
    within (blood v) 40 140 /\
    within (bmi v) 10 60 /\
    within (insulin_used v) 10 400 /\
    within (skin_used v) 5 80 /\
    ((10 <= Form.age f <= 100)%Z <-> fv_within_ranges (feature_vector v)) /\
    (widget_bounds f -> fv_within_ranges (feature_vector v)).
Proof.
  destruct (submit_prepare_ok f dpf)
    as (v & Hv & Hg & Hbl & _ & _ & Hb & Hi & Hs & _ & _ & Hfv).
  assert (Gg : within (glucose v) 40 300)
    by (rewrite Hg; apply (clip_to_within _ k_glucose)).
  assert (Gbl : within (blood v) 40 140)
    by (rewrite Hbl; apply (clip_to_within _ k_blood)).
  assert (Gb : within (bmi v) 10 60)
    by (apply compute_bmi_within with (1 := Hb)).
  assert (Gi : within (insulin_used v) 10 400)
    by (rewrite Hi; apply (clip_to_within _ k_insulin)).
  assert (Gs : within (skin_used v) 5 80)
    by (rewrite Hs; apply (clip_to_within _ k_skin)).
  exists v. do 7 (split; [assumption |]).
  rewrite Hfv. cbn [fv_within_ranges].
  pose proof (within_inject_Z (Form.age f) 10 100) as Hage.
  change (inject_Z 10) with 10 in Hage.
  change (inject_Z 100) with 100 in Hage.
  split; [tauto |]. intros (Hw & _). tauto.
Qed.

Lemma feature_ranges_witness :
  exists v,
    submit_prepare
      (Form.Make 40 0 70.0 170.0 100 80 None None "พ่อหรือแม่เป็น") 1.0 =
      Ok v /\
    fv_within_ranges (feature_vector v).
Proof.
  destruct
    (feature_ranges
       (Form.Make 40 0 70.0 170.0 100 80 None None "พ่อหรือแม่เป็น") 1.0)
    as (v & Hv & _ & _ & _ & _ & _ & _ & _ & Hwidget).
  exists v. split; [exact Hv |]. apply Hwidget.
  unfold widget_bounds, within, Qle. simpl.
  repeat split; try lia; try congruence.
Defined.


(* ====================================================================== *)
(** ** The submit block: what it leaves on the page *)
(* ====================================================================== *)

Lemma keeps_vars_ret {A} (a : A) : keeps_vars (ret a).
Proof. intro w. reflexivity. Qed.

Lemma keeps_vars_lift {A} (r : result A) : keeps_vars (lift r).
Proof. intro w. reflexivity. Qed.

Lemma keeps_vars_st (c : st_call) : keeps_vars (st c).
Proof. intro w. reflexivity. Qed.

Lemma keeps_vars_bind {A B} (m : St A) (k : A -> St B) :
  keeps_vars m -> (forall a, keeps_vars (k a)) -> keeps_vars (bind m k).
Proof.
  intros Hm Hk w. unfold bind. specialize (Hm w).
  destruct (m w) as [[a | e] w']; simpl in *.
  - rewrite Hk. exact Hm.
  - exact Hm.
Qed.

Lemma keeps_vars_try_except {A} (body : St A) (handler : exn -> St A) :
  keeps_vars body -> (forall e, keeps_vars (handler e)) ->
  keeps_vars (try_except body handler).
Proof.
  intros Hb Hh w. unfold try_except. specialize (Hb w).
  destruct (body w) as [[a | e] w']; simpl in *.
  - exact Hb.
  - destruct (is_Exception e); simpl.
    + rewrite Hh. exact Hb.
    + exact Hb.
Qed.

Lemma keeps_vars_for_each {A} (l : list A) (body : A -> St unit) :
  (forall a, keeps_vars (body a)) -> keeps_vars (for_each l body).
Proof.
  intro Hb. induction l as [| a l IH]; simpl.
  - apply keeps_vars_ret.
  - apply keeps_vars_bind; [apply Hb | intros _; exact IH].
Qed.

Lemma keeps_vars_if {A} (c : bool) (m1 m2 : St A) :
  keeps_vars m1 -> keeps_vars m2 -> keeps_vars (if c then m1 else m2).
Proof. destruct c; auto. Qed.

Create HintDb keeps discriminated.
#[local] Hint Resolve keeps_vars_ret keeps_vars_lift keeps_vars_st
  keeps_vars_bind keeps_vars_try_except keeps_vars_for_each keeps_vars_if
  : keeps.

(** Lines 158-217 only draw. *)
Lemma submit_render_keeps_vars (model : option classifier) (f : Form.t)
    (dpf : Q) (v : locals) :
  keeps_vars (submit_render model f dpf v).
Proof.
  unfold submit_render.
  do 2 (apply keeps_vars_bind; [apply keeps_vars_st | intros _]).
  destruct model as [model |]; [| apply keeps_vars_st].
  apply keeps_vars_try_except; [| intro e; apply keeps_vars_st].
  apply keeps_vars_bind; [apply keeps_vars_lift | intro prob].
  destruct (risk_level_from_prob prob) as [risk_label risk_msg].
  repeat (first [ apply keeps_vars_bind; [| intros _]
                | apply keeps_vars_if ]);
    auto with keeps.
Qed.

(** After the block has run, with or without a classifier, the variables of
    lines 140-156 are bound. *)
Lemma submit_block_vars (model : option classifier) (f : Form.t) (dpf : Q)
    (v : locals) :
  submit_prepare f dpf = Ok v ->
  vars (snd (run (submit_block model f dpf))) = Some v.
Proof.
  intro Hv. unfold run, submit_block, bind, lift, assign. rewrite Hv.
  cbn [page vars fresh]. rewrite submit_render_keeps_vars. reflexivity.
Qed.

(** C8.  An optional input that is supplied is clipped to its range and
    used; one that is missing is replaced by its fallback (80.0 for insulin,
    20.0 for skin thickness), which is clipped too and is left unchanged by
    the clip because it lies in the range.  The two flags are true exactly
    when the input was supplied, whatever the clip did, and they are what
    the block has bound after the run, with or without a classifier. *)
Theorem optional_inputs (f : Form.t) (dpf : Q) :
  exists v,
    submit_prepare f dpf = Ok v /\
    (forall insulin, Form.insulin f = Some insulin ->
       insulin_used v = clip_value (inject_Z insulin) 10 400 /\
       insulin_provided_flag v = true) /\
    (Form.insulin f = None ->
       insulin_used v = clip_value 80.0 10 400 /\
       insulin_used v == 80.0 /\
       insulin_provided_flag v = false) /\
    (forall skin, Form.skin f = Some skin ->
       skin_used v = clip_value (inject_Z skin) 5 80 /\
       skin_provided_flag v = true) /\
    (Form.skin f = None ->
       skin_used v = clip_value 20.0 5 80 /\
       skin_used v == 20.0 /\
       skin_provided_flag v = false) /\
    within 80.0 10 400 /\
    within 20.0 5 80 /\
    (forall model, vars (snd (run (submit_block model f dpf))) = Some v).
Proof.
  destruct (submit_prepare_ok f dpf)
    as (v & Hv & _ & _ & _ & _ & _ & Hi & Hs & Hif & Hsf & _).
  exists v. split; [exact Hv |].
  split; [| split; [| split; [| split; [| split; [| split]]]]].
  - intros insulin E. rewrite E in Hi, Hif. split; assumption.
  - intro E. rewrite E in Hi, Hif. split; [exact Hi |].
    split; [rewrite Hi; reflexivity | exact Hif].
  - intros skin E. rewrite E in Hs, Hsf. split; assumption.
  - intro E. rewrite E in Hs, Hsf. split; [exact Hs |].
    split; [rewrite Hs; reflexivity | exact Hsf].
  - unfold within, Qle. simpl. lia.
  - unfold within, Qle. simpl. lia.
  - intro model. apply submit_block_vars. exact Hv.
Qed.

Lemma optional_inputs_witness :
  exists v,
    submit_prepare
      (Form.Make 40 0 70.0 170.0 100 80 None (Some 500%Z) "พ่อหรือแม่เป็น")
      1.0 = Ok v /\
    (insulin_used v = clip_value (inject_Z 500) 10 400 /\
     insulin_provided_flag v = true) /\
    (skin_used v = clip_value 20.0 5 80 /\
     skin_used v == 20.0 /\
     skin_provided_flag v = false).
Proof.
  destruct
    (optional_inputs
       (Form.Make 40 0 70.0 170.0 100 80 None (Some 500%Z) "พ่อหรือแม่เป็น")
       1.0) as (v & Hv & Hi & _ & _ & Hs & _).
  exists v. split; [exact Hv |]. split.
  - apply Hi. reflexivity.
  - apply Hs. reflexivity.
Defined.

(** C1, as stated, fails: with no classifier loaded the block has assembled
    the feature vector by the time it reports that the model is
    unavailable. *)
Lemma absent_model_counterexample :
  exists v,
    vars (snd (run (submit_block None
                      (Form.Make 40 0 70.0 170.0 100 80 None None
                         "พ่อหรือแม่เป็น") 1.0))) = Some v /\
    feature_vector v = [[100; 24.22; 40; 80; 80.0; 1.0; 20.0]] /\
    ~ stops_before_assembly
        (snd (run (submit_block None
                     (Form.Make 40 0 70.0 170.0 100 80 None None
                        "พ่อหรือแม่เป็น") 1.0))).
Proof.
  exists (Locals 100 80 70.0 170.0 24.22 80.0 20.0 false false
            [[100; 24.22; 40; 80; 80.0; 1.0; 20.0]]).
  split; [vm_compute; reflexivity |]. split; [reflexivity |].
  unfold stops_before_assembly. vm_compute. discriminate.
Qed.

(** C1, amended.  When the model file is missing or loading it raises,
    [load_model] returns no model; and for every submission made while no
    model is loaded, the block clips the inputs and assembles the feature
    vector, shows the summary of those values, and then reports that the
    model is unavailable.  Nothing else is drawn: no probability, no tier
    or message, no advice. *)
Theorem absent_model_run (f : Form.t) (dpf : Q) (path e : string) :
  fst (load_model path FileMissing) = None /\
  fst (load_model path (LoadRaises e)) = None /\
  exists v,
    submit_prepare f dpf = Ok v /\
    feature_vector v =
      [[glucose v; bmi v; inject_Z (Form.age f); blood v; insulin_used v;
        dpf; skin_used v]] /\
    run (submit_block None f dpf) =
      (Ok tt,
       World [st_subheader "สรุปข้อมูลที่ใช้ในการประเมิน";
              st_write_dict (summary_of f dpf v);
              st_error msg_model_unavailable]
         (Some v)).
Proof.
  split; [reflexivity |]. split; [reflexivity |].
  destruct (submit_prepare_ok f dpf)
    as (v & Hv & _ & _ & _ & _ & _ & _ & _ & _ & _ & Hfv).
  exists v. split; [exact Hv |]. split; [exact Hfv |].
  unfold run, submit_block, bind, lift. rewrite Hv. reflexivity.
Qed.

(* ====================================================================== *)
(** ** A run with a stub classifier *)
(* ====================================================================== *)

(** A loop that makes one call per element appends those calls. *)
Lemma for_each_st {A} (l : list A) (c : A -> st_call) (w : world) :
  for_each l (fun a => st (c a)) w =
  (Ok tt, World (page w ++ map c l) (vars w)).
Proof.
  revert w. induction l as [| a l IH]; intro w; simpl.
  - unfold ret. rewrite app_nil_r. destruct w; reflexivity.
  - unfold bind, st at 1. rewrite IH. simpl.
    rewrite <- app_assoc. reflexivity.
Qed.

(** Equations for stepping through a piece of script. *)
Lemma bind_for_each_st {A B} (l : list A) (c : A -> st_call)
    (k : unit -> St B) (w : world) :
  bind (for_each l (fun a => st (c a))) k w =
  k tt (World (page w ++ map c l) (vars w)).
Proof. unfold bind. rewrite for_each_st. reflexivity. Qed.

Lemma bind_assoc {A B C} (m : St A) (k1 : A -> St B) (k2 : B -> St C)
    (w : world) :
  bind (bind m k1) k2 w = bind m (fun a => bind (k1 a) k2) w.
Proof. unfold bind. destruct (m w) as [[a | e] w']; reflexivity. Qed.

Lemma try_except_Ok {A} (body : St A) (handler : exn -> St A) (w w' : world)
    (a : A) :
  body w = (Ok a, w') -> try_except body handler w = (Ok a, w').
Proof. intro H. unfold try_except. rewrite H. reflexivity. Qed.

(** One step of a script whose next statement is a call, an assignment or
    an expression that has a value. *)
Ltac step :=
  lazymatch goal with
  | |- bind (bind ?m ?k1) ?k2 ?w = _ => rewrite (bind_assoc m k1 k2 w)
  | |- bind (st ?c) ?k ?w = _ =>
      change (bind (st c) k w) with (k tt (World (page w ++ [c]) (vars w)))
  | |- bind (assign ?v) ?k ?w = _ =>
      change (bind (assign v) k w) with (k tt (World (page w) (Some v)))
  | |- bind (lift (Ok ?a)) ?k ?w = _ =>
      change (bind (lift (Ok a)) k w) with (k a w)
  | |- st ?c ?w = _ =>
      change (st c w) with (@Ok unit tt, World (page w ++ [c]) (vars w))
  | |- ret ?a ?w = _ => change (ret a w) with (Ok a, w)
  end; cbv beta; cbn [page vars].

(** With that stub the block ends in the Medium tier, with at least the
    weight and the glucose advisory, and with the flags of the submission. *)
Lemma stub_half_run (f : Form.t) (dpf : Q) :
  exists v adv tail,
    submit_prepare f dpf = Ok v /\
    adv = health_advice (Some (glucose v)) (Some (bmi v)) (Some (blood v))
            (Some (inject_Z (Form.age f))) (insulin_provided_flag v)
            (skin_provided_flag v) /\
    adv <> [] /\
    insulin_provided_flag v = is_not_None (Form.insulin f) /\
    skin_provided_flag v = is_not_None (Form.skin f) /\
    run (submit_block (Some stub_half) f dpf) =
      (Ok tt,
       World ([st_subheader "สรุปข้อมูลที่ใช้ในการประเมิน";
               st_write_dict (summary_of f dpf v);
               st_markdown "### ผลการประเมิน";
               st_metric "ความเสี่ยง (probability)" 0.5
                 "ความน่าจะเป็นที่โมเดลประเมินว่าจะเป็นเบาหวาน";
               st_warning ("ระดับความเสี่ยง: " ++ fst tier_Medium ++ " — "
                           ++ snd tier_Medium);
               st_markdown "### คำแนะนำสุขภาพ (เบื้องต้น)"]
              ++ map (fun a => st_write ("- " ++ a)) adv ++ tail)%list
         (Some v)).
Proof.
  destruct (submit_prepare_ok f dpf)
    as (v & Hv & _ & _ & _ & _ & _ & _ & _ & Hif & Hsf & _).
  exists v. eexists.
  exists ([st_markdown "#### ข้อแนะนำเพิ่มเติมตามระดับความเสี่ยง";
           st_write "- ควรปรับพฤติกรรม: ลดน้ำตาล/ลดแป้ง น้ำตาลผลไม้ ควบคุมปริมาณแคลอรี";
           st_write "- เริ่มออกกำลังกายแบบแอโรบิค 150 นาที/สัปดาห์ และเพิ่มการฝึกความแข็งแรง 2 วัน/สัปดาห์"]
          ++ (if negb (insulin_provided_flag v) || negb (skin_provided_flag v)
              then [st_info "หมายเหตุ: เนื่องจากไม่ได้กรอกค่า Insulin หรือ SkinThickness ระบบใช้ค่าประมาณในการประเมิน ผลลัพธ์อาจไม่แม่นยำเท่าการมีค่าจริง"]
              else []))%list.
  split; [exact Hv |]. split; [reflexivity |].
  split; [rewrite health_advice_unfold; discriminate |].
  split; [exact Hif |]. split; [exact Hsf |].
  unfold run, submit_block, fresh. rewrite Hv. do 2 step.
  unfold submit_render. do 2 step.
  apply try_except_Ok.
  change (predict_prob stub_half (feature_vector v)) with (@Ok Q 0.5).
  step.
  change (risk_level_from_prob 0.5) with tier_Medium.
  cbv beta iota delta [tier_Medium fst snd].
  do 2 step.
  change (String.eqb "ปานกลาง" "ต่ำ") with false.
  change (String.eqb "ปานกลาง" "ปานกลาง") with true.
  cbv iota. do 2 step.
  rewrite bind_for_each_st. cbv beta. cbn [page vars]. step.
  change (PyNum.geb 0.5 0.6) with false.
  change (PyNum.geb 0.5 0.3) with true.
  cbv iota. do 3 step.
  destruct (negb (insulin_provided_flag v) || negb (skin_provided_flag v));
    step; rewrite <- ?app_assoc; reflexivity.
Qed.

(* ====================================================================== *)
(** ** More on [clip_value] *)
(* ====================================================================== *)

(** The case analysis behind [np.clip]: what the inner maximum and the
    outer minimum are. *)
Ltac clip_cases v lo hi :=
  unfold clip_value, PyNum.np_clip, PyNum.np_minimum, PyNum.np_maximum;
  let E := fresh "E" in
  let F := fresh "F" in
  destruct (Q.max_spec v lo) as [[? E] | [? E]];
  destruct (Q.min_spec hi (Qmax v lo)) as [[? F] | [? F]];
  rewrite ?F, ?E in *.

(** X1.  Between ordered bounds, a value at or below the lower bound is
    clipped to the lower bound and a value at or above the upper bound to
    the upper bound. *)
Theorem clip_value_saturates (v lo hi : Q) :
  lo <= hi ->
  (v <= lo -> clip_value v lo hi == lo) /\
  (hi <= v -> clip_value v lo hi == hi).
Proof.
  intro Hle. split; intro Hv; clip_cases v lo hi; lra.
Qed.

Lemma clip_value_saturates_witness :
  clip_value 12 40 300 == 40 /\ clip_value 999 40 300 == 300.
Proof.
  split.
  - apply (clip_value_saturates 12 40 300); unfold Qle; simpl; lia.
  - apply (clip_value_saturates 999 40 300); unfold Qle; simpl; lia.
Defined.

(** X2.  Clipping keeps the order of values: a larger input never gives a
    smaller result, whatever the bounds. *)
Theorem clip_value_monotone (v1 v2 lo hi : Q) :
  v1 <= v2 -> clip_value v1 lo hi <= clip_value v2 lo hi.
Proof.
  intro Hv. clip_cases v1 lo hi; clip_cases v2 lo hi; lra.
Qed.

Lemma clip_value_monotone_witness :
  clip_value 30 40 300 <= clip_value 350 40 300.
Proof.
  apply clip_value_monotone. unfold Qle. simpl. lia.
Defined.

(** X3.  Clipping never moves two values further apart. *)
Theorem clip_value_nonexpansive (a b lo hi : Q) :
  Qabs (clip_value a lo hi - clip_value b lo hi) <= Qabs (a - b).
Proof.
  pose proof (Qle_Qabs (a - b)) as H1.
  pose proof (Qle_Qabs (- (a - b))) as H2. rewrite Qabs_opp in H2.
  apply Qabs_Qle_condition.
  clip_cases a lo hi; clip_cases b lo hi; split; lra.
Qed.

(** X4.  With the bounds the wrong way round, the result is the last
    argument whatever the value. *)
Theorem clip_value_swapped (v minv maxv : Q) :
  maxv < minv -> clip_value v minv maxv == maxv.
Proof.
  intro Hsw. clip_cases v minv maxv; lra.
Qed.

Lemma clip_value_swapped_witness : clip_value 5 10 0 == 0.
Proof.
  apply clip_value_swapped. unfold Qlt. simpl. lia.
Defined.

(* ====================================================================== *)
(** ** More on [risk_level_from_prob] *)
(* ====================================================================== *)

(** X5.  The tier tells the band of the probability: the result is Low only
    below 0.30, Medium only from 0.30 to below 0.60 and High only from 0.60
    on, so no probability has two tiers. *)
Theorem tier_determines_band (p : Q) :
  (risk_level_from_prob p = tier_Low <-> p < 0.30) /\
  (risk_level_from_prob p = tier_Medium <-> 0.30 <= p /\ p < 0.60) /\
  (risk_level_from_prob p = tier_High <-> 0.60 <= p).
Proof.
  destruct (Qlt_le_dec p 0.30) as [H1 | H1];
    [| destruct (Qlt_le_dec p 0.60) as [H2 | H2]].
  - rewrite (risk_low p H1).
    repeat split; intros; try discriminate; try reflexivity; lra.
  - rewrite (risk_medium p H1 H2).
    repeat split; intros; try discriminate; try reflexivity; lra.
  - rewrite (risk_high p H2).
    repeat split; intros; try discriminate; try reflexivity; lra.
Qed.

Lemma tier_determines_band_witness :
  risk_level_from_prob 0.45 = tier_Medium /\ 0.30 <= 0.45 /\ 0.45 < 0.60.
Proof.
  assert (H : 0.30 <= 0.45 /\ 0.45 < 0.60)
    by (split; [unfold Qle | unfold Qlt]; simpl; lia).
  split; [| exact H].
  apply (proj2 (proj1 (proj2 (tier_determines_band 0.45)))). exact H.
Defined.

(** X6.  A higher probability never gives a lower tier: if the higher one
    is Low so is the lower one, and if the lower one is High so is the
    higher one. *)
Theorem tier_monotone (p q : Q) :
  p <= q ->
  (risk_level_from_prob q = tier_Low -> risk_level_from_prob p = tier_Low) /\
  (risk_level_from_prob p = tier_High -> risk_level_from_prob q = tier_High).
Proof.
  intro Hpq. split; intro H.
  - apply risk_low.
    destruct (Qlt_le_dec q 0.30) as [H1 | H1]; [lra |].
    destruct (Qlt_le_dec q 0.60) as [H2 | H2].
    + rewrite (risk_medium q H1 H2) in H. discriminate H.
    + rewrite (risk_high q H2) in H. discriminate H.
  - apply risk_high.
    destruct (Qlt_le_dec p 0.30) as [H1 | H1].
    + rewrite (risk_low p H1) in H. discriminate H.
    + destruct (Qlt_le_dec p 0.60) as [H2 | H2]; [| lra].
      rewrite (risk_medium p H1 H2) in H. discriminate H.
Qed.

Lemma tier_monotone_witness : risk_level_from_prob 0.9 = tier_High.
Proof.
  assert (H : 0.7 <= 0.9) by (unfold Qle; simpl; lia).
  apply (proj2 (tier_monotone 0.7 0.9 H)). reflexivity.
Defined.

(* ====================================================================== *)
(** ** More on rounding and the BMI *)
(* ====================================================================== *)

Lemma round_half_even_comp (x y : Q) :
  x == y -> PyNum.round_half_even x = PyNum.round_half_even y.
Proof.
  intro E. unfold PyNum.round_half_even.
  rewrite (Qfloor_comp x y E).
  assert (Ec : (x - inject_Z (Qfloor y) ?= 1 # 2) =
               (y - inject_Z (Qfloor y) ?= 1 # 2))
    by (rewrite E; reflexivity).
  rewrite Ec. reflexivity.
Qed.

(** Rounding to an integer keeps the order. *)
Lemma round_half_even_monotone (x y : Q) :
  x <= y -> (PyNum.round_half_even x <= PyNum.round_half_even y)%Z.
Proof.
  intro Hxy.
  pose proof (RoundFacts.round_half_even_close x) as Hx.
  pose proof (RoundFacts.round_half_even_close y) as Hy.
  apply Qabs_Qle_condition in Hx. apply Qabs_Qle_condition in Hy.
  destruct (Z_le_gt_dec (PyNum.round_half_even x) (PyNum.round_half_even y))
    as [Hle | Hgt]; [exact Hle | exfalso].
  assert (Hz : (PyNum.round_half_even y + 1 <= PyNum.round_half_even x)%Z)
    by lia.
  rewrite Zle_Qle, inject_Z_plus in Hz. change (inject_Z 1) with 1 in Hz.
  assert (E : x == y) by lra.
  rewrite (round_half_even_comp x y E) in Hgt. lia.
Qed.

(** [round(x, d)] keeps the order. *)
Lemma round_monotone (x y : Q) (d : nat) :
  x <= y -> PyNum.round x d <= PyNum.round y d.
Proof.
  intro Hxy. unfold PyNum.round.
  pose proof (RoundFacts.pow10_pos d) as Hp.
  apply Qmult_le_compat_r.
  - rewrite <- Zle_Qle. apply round_half_even_monotone.
    apply Qmult_le_compat_r; [exact Hxy | apply Qlt_le_weak; exact Hp].
  - apply Qlt_le_weak. apply Qinv_lt_0_compat. exact Hp.
Qed.

(** [np.clip] returns its value or one of the bounds. *)
Lemma np_clip_choice (a lo hi : Q) :
  PyNum.np_clip a lo hi == a \/ PyNum.np_clip a lo hi == lo \/
  PyNum.np_clip a lo hi == hi.
Proof.
  unfold PyNum.np_clip, PyNum.np_minimum, PyNum.np_maximum.
  destruct (Q.max_spec a lo) as [[_ E] | [_ E]];
    destruct (Q.min_spec hi (Qmax a lo)) as [[_ F] | [_ F]];
    rewrite F, ?E; auto using Qeq_refl.
Qed.

Lemma np_clip_monotone (a b lo hi : Q) :
  a <= b -> PyNum.np_clip a lo hi <= PyNum.np_clip b lo hi.
Proof.
  intro Hab. unfold PyNum.np_clip, PyNum.np_minimum, PyNum.np_maximum.
  apply Q.min_le_compat_l. apply Q.max_le_compat_r. exact Hab.
Qed.

(** The squared height in metres of a height that is not zero is
    positive. *)
Lemma square_metres_pos (height : Q) :
  ~ height == 0 -> 0 < (height / 100.0) ^ 2.
Proof.
  intro Hh. pose proof (square_metres_nonzero height Hh) as Hnz.
  change ((height / 100.0) ^ 2)
    with ((height / 100.0) * (height / 100.0)) in *.
  set (t := height / 100.0) in *.
  assert (Hsq : 0 <= t * t) by nra.
  destruct (Qle_lt_or_eq _ _ Hsq) as [Hlt | Heq]; [exact Hlt |].
  exfalso. apply Hnz. symmetry. exact Heq.
Qed.

(** The quotient of lines 144 grows with the weight and shrinks with the
    height. *)
Lemma bmi_quotient_monotone (w1 w2 h1 h2 : Q) :
  0 <= w1 -> w1 <= w2 -> 0 < h2 -> h2 <= h1 ->
  w1 / (h1 / 100.0) ^ 2 <= w2 / (h2 / 100.0) ^ 2.
Proof.
  intros Hw0 Hw Hh0 Hh.
  assert (Hnz1 : ~ h1 == 0) by lra.
  assert (Hnz2 : ~ h2 == 0) by lra.
  pose proof (square_metres_pos h1 Hnz1) as Hs1.
  pose proof (square_metres_pos h2 Hnz2) as Hs2.
  assert (Hs : (h2 / 100.0) ^ 2 <= (h1 / 100.0) ^ 2).
  { change ((h2 / 100.0) ^ 2) with ((h2 / 100.0) * (h2 / 100.0)).
    change ((h1 / 100.0) ^ 2) with ((h1 / 100.0) * (h1 / 100.0)).
    assert (0 < h2 / 100.0) by (apply Qlt_shift_div_l; lra).
    assert (h2 / 100.0 <= h1 / 100.0)
      by (apply Qmult_le_compat_r; [exact Hh | discriminate]).
    nra. }
  set (s1 := (h1 / 100.0) ^ 2) in *. set (s2 := (h2 / 100.0) ^ 2) in *.
  apply Qle_shift_div_l; [exact Hs2 |].
  assert (E : w1 / s1 * s2 == w1 * (s2 / s1)) by (field; lra).
  rewrite E.
  assert (Hr : s2 / s1 <= 1)
    by (apply Qle_shift_div_r; [exact Hs1 | lra]).
  assert (Hr0 : 0 <= s2 / s1)
    by (apply Qle_shift_div_l; [exact Hs1 | lra]).
  nra.
Qed.

(** X7.  The BMI placed in the feature vector is a whole number of
    hundredths between 10.00 and 60.00. *)
Theorem bmi_two_decimals (f : Form.t) (dpf : Q) :
  exists v k,
    submit_prepare f dpf = Ok v /\
    bmi v == inject_Z k / 100 /\
    (1000 <= k <= 6000)%Z.
Proof.
  destruct (submit_prepare_ok f dpf)
    as (v & Hv & _ & _ & _ & Hh & Hb & _).
  assert (Hnz : ~ height v == 0)
    by (rewrite Hh; apply clipped_height_nonzero).
  pose proof (compute_bmi_within _ _ _ Hb) as [Hlo Hhi].
  set (x := weight v / (height v / 100.0) ^ 2).
  assert (Eb : PyNum.np_clip (PyNum.round x 2) 10 60 = bmi v)
    by (rewrite (compute_bmi_ok _ _ Hnz) in Hb; injection Hb as Hb;
        exact Hb).
  destruct (np_clip_choice (PyNum.round x 2) 10 60) as [E | [E | E]];
    rewrite Eb in E.
  - exists v, (PyNum.round_half_even (x * PyNum.pow10 2)).
    split; [exact Hv |]. split; [exact E |].
    rewrite E in Hlo, Hhi. unfold PyNum.round in Hlo, Hhi.
    change (PyNum.pow10 2) with 100 in *.
    set (K := PyNum.round_half_even (x * 100)) in *.
    assert (EK : inject_Z K == inject_Z K / 100 * 100)
      by (field; discriminate).
    set (y := inject_Z K / 100) in *.
    assert (H1 : inject_Z 1000 <= inject_Z K)
      by (change (inject_Z 1000) with 1000; lra).
    assert (H2 : inject_Z K <= inject_Z 6000)
      by (change (inject_Z 6000) with 6000; lra).
    rewrite <- Zle_Qle in H1, H2. lia.
  - exists v, 1000%Z. split; [exact Hv |]. split; [| lia].
    rewrite E. reflexivity.
  - exists v, 6000%Z. split; [exact Hv |]. split; [| lia].
    rewrite E. reflexivity.
Qed.

(** X8.  Of two submissions, the one with at least the weight and at most
    the height of the other never gets the smaller BMI. *)
Theorem bmi_monotone (f1 f2 : Form.t) (dpf1 dpf2 : Q) :
  Form.weight f1 <= Form.weight f2 ->
  Form.height f2 <= Form.height f1 ->
  exists v1 v2,
    submit_prepare f1 dpf1 = Ok v1 /\
    submit_prepare f2 dpf2 = Ok v2 /\
    bmi v1 <= bmi v2.
Proof.
  intros Hw Hh.
  destruct (submit_prepare_ok f1 dpf1)
    as (v1 & Hv1 & _ & _ & Hw1 & Hh1 & Hb1 & _).
  destruct (submit_prepare_ok f2 dpf2)
    as (v2 & Hv2 & _ & _ & Hw2 & Hh2 & Hb2 & _).
  exists v1, v2. split; [exact Hv1 |]. split; [exact Hv2 |].
  assert (Hnz1 : ~ height v1 == 0)
    by (rewrite Hh1; apply clipped_height_nonzero).
  assert (Hnz2 : ~ height v2 == 0)
    by (rewrite Hh2; apply clipped_height_nonzero).
  rewrite (compute_bmi_ok _ _ Hnz1) in Hb1. injection Hb1 as <-.
  rewrite (compute_bmi_ok _ _ Hnz2) in Hb2. injection Hb2 as <-.
  apply np_clip_monotone. apply round_monotone.
  destruct (clip_to_within (Form.weight f1) k_weight) as [Hw1lo _].
  destruct (clip_to_within (Form.height f2) k_height) as [Hh2lo _].
  simpl in Hw1lo, Hh2lo.
  apply bmi_quotient_monotone.
  - rewrite Hw1. lra.
  - rewrite Hw1, Hw2. unfold clip_to. simpl.
    apply np_clip_monotone. exact Hw.
  - rewrite Hh2. lra.
  - rewrite Hh1, Hh2. unfold clip_to. simpl.
    apply np_clip_monotone. exact Hh.
Qed.

Lemma bmi_monotone_witness :
  exists v1 v2,
    submit_prepare
      (Form.Make 40 0 60.0 180.0 100 80 None None "พ่อหรือแม่เป็น") 1.0 =
      Ok v1 /\
    submit_prepare
      (Form.Make 40 0 90.0 160.0 100 80 None None "พ่อหรือแม่เป็น") 1.0 =
      Ok v2 /\
    bmi v1 <= bmi v2.
Proof.
  apply bmi_monotone; unfold Qle; simpl; lia.
Defined.

(* ====================================================================== *)
(** ** More on [health_advice]: missing numbers *)
(* ====================================================================== *)

Lemma distinctb_NoDup (l : list string) : distinctb l = true -> NoDup l.
Proof.
  induction l as [| x l IH]; simpl; intro H.
  - constructor.
  - apply andb_true_iff in H. destruct H as [Hx Hl].
    constructor; [| apply IH; exact Hl].
    intro Hin. apply negb_true_iff in Hx.
    assert (Ht : existsb (String.eqb x) l = true).
    { apply existsb_exists. exists x. split; [exact Hin |].
      apply String.eqb_refl. }
    congruence.
Qed.

Lemma incl_by_test (l l' : list string) :
  forallb (fun x => existsb (String.eqb x) l') l = true -> incl l l'.
Proof.
  intros H x Hx. rewrite forallb_forall in H. specialize (H x Hx).
  apply existsb_exists in H. destruct H as (y & Hy & E).
  apply String.eqb_eq in E. subst y. exact Hy.
Qed.

(** The list built by the successive appends, for numbers that may be
    missing: five parts in a fixed order, each empty or one line. *)
Lemma health_advice_parts (glucose bmi blood age : option Q)
    (insulin_provided skin_provided : bool) :
  health_advice glucose bmi blood age insulin_provided skin_provided =
  ((match bmi with
    | Some bmi =>
        [if PyNum.geb bmi 30 then msg_obesity
         else if PyNum.geb bmi 25 then msg_overweight
         else msg_healthy_weight]
    | None => []
    end)
   ++ (match glucose with
       | Some glucose =>
           [if PyNum.geb glucose 200 then msg_glucose_urgent
            else if PyNum.geb glucose 140 then msg_glucose_prediabetes
            else msg_glucose_normal]
       | None => []
       end)
   ++ (match blood with
       | Some blood =>
           if PyNum.geb blood 120 then [msg_blood_pressure] else []
       | None => []
       end)
   ++ (if negb insulin_provided || negb skin_provided
       then [msg_data_completeness] else [])
   ++ (match age with
       | Some age => if PyNum.geb age 60 then [msg_age] else []
       | None => []
       end))%list.
Proof.
  unfold health_advice.
  destruct bmi, glucose, blood, age;
    rewrite ?append_choice, ?append_when, <- ?app_assoc, ?app_nil_r;
    reflexivity.
Qed.

(** X9.  Whatever numbers are present, the advice has no repeated line, at
    most five lines, and only lines from the nine advisory lines. *)
Theorem health_advice_wellformed (glucose bmi blood age : option Q)
    (insulin_provided skin_provided : bool) :
  let advice :=
    health_advice glucose bmi blood age insulin_provided skin_provided in
  NoDup advice /\ (length advice <= 5)%nat /\ incl advice advisory_lines.
Proof.
  cbv zeta. rewrite health_advice_parts.
  destruct bmi as [b |]; [destruct (PyNum.geb b 30), (PyNum.geb b 25) |];
    (destruct glucose as [g |];
       [destruct (PyNum.geb g 200), (PyNum.geb g 140) |]);
    (destruct blood as [bp |]; [destruct (PyNum.geb bp 120) |]);
    destruct (negb insulin_provided || negb skin_provided);
    (destruct age as [a |]; [destruct (PyNum.geb a 60) |]);
    (split; [apply distinctb_NoDup; vm_compute; reflexivity |]);
    (split; [simpl; lia | apply incl_by_test; vm_compute; reflexivity]).
Qed.

(** Turn the recorded outcomes of the comparisons into inequalities. *)
Ltac geb_facts :=
  repeat match goal with
  | H : PyNum.geb _ _ = true |- _ => apply PyNumFacts.geb_true in H
  | H : PyNum.geb _ _ = false |- _ => apply PyNumFacts.geb_false in H
  end.

(** [H] says that a line is in one part of the advice: find which line the
    part holds; a different line is a contradiction. *)
Ltac which_line H :=
  repeat match type of H with
  | context [match ?o with _ => _ end] => destruct o eqn:?
  end;
  simpl in H;
  try contradiction;
  destruct H as [H | []];
  try (exfalso; vm_compute in H; discriminate H);
  clear H; geb_facts.

(** A line is in the advice: look in each of the five parts. *)
Ltac in_advice H :=
  rewrite health_advice_parts, !in_app_iff in H;
  destruct H as [H | [H | [H | [H | H]]]]; which_line H.

(** Show that a line is in the advice from the outcome of the
    comparisons. *)
Ltac show_line :=
  rewrite health_advice_parts, !in_app_iff;
  repeat match goal with
  | |- context [PyNum.geb ?x ?t] =>
      destruct (PyNum.geb x t) eqn:?
  end;
  geb_facts; try lra; simpl; tauto.

(** X10.  Each of the nine lines is in the advice exactly when its number
    is present and in its band; the data-completeness line exactly when one
    of the two flags is false. *)
Theorem health_advice_membership (glucose bmi blood age : option Q)
    (insulin_provided skin_provided : bool) :
  let advice :=
    health_advice glucose bmi blood age insulin_provided skin_provided in
  (In msg_obesity advice <-> exists b, bmi = Some b /\ 30 <= b) /\
  (In msg_overweight advice <->
   exists b, bmi = Some b /\ 25 <= b /\ b < 30) /\
  (In msg_healthy_weight advice <-> exists b, bmi = Some b /\ b < 25) /\
  (In msg_glucose_urgent advice <-> exists g, glucose = Some g /\ 200 <= g) /\
  (In msg_glucose_prediabetes advice <->
   exists g, glucose = Some g /\ 140 <= g /\ g < 200) /\
  (In msg_glucose_normal advice <-> exists g, glucose = Some g /\ g < 140) /\
  (In msg_blood_pressure advice <-> exists p, blood = Some p /\ 120 <= p) /\
  (In msg_data_completeness advice <->
   insulin_provided = false \/ skin_provided = false) /\
  (In msg_age advice <-> exists a, age = Some a /\ 60 <= a).
Proof.
  cbv zeta.
  repeat match goal with |- _ /\ _ => split end.
  all: split; intro H.
  all: try solve [in_advice H; eexists; repeat split;
                  first [reflexivity | lra]].
  all: try solve [destruct H as (x & -> & H); show_line].
  - in_advice H.
    destruct insulin_provided, skin_provided; simpl in *;
      auto; discriminate.
  - rewrite health_advice_parts, !in_app_iff.
    destruct H as [-> | ->]; simpl; rewrite ?orb_true_r; simpl; tauto.
Qed.

(** X11.  The advice is empty exactly when neither BMI nor glucose is
    given, both optional inputs were provided, and blood pressure and age
    are missing or below their thresholds. *)
Theorem health_advice_empty (glucose bmi blood age : option Q)
    (insulin_provided skin_provided : bool) :
  health_advice glucose bmi blood age insulin_provided skin_provided = [] <->
  bmi = None /\ glucose = None /\
  (forall p, blood = Some p -> p < 120) /\
  insulin_provided = true /\ skin_provided = true /\
  (forall a, age = Some a -> a < 60).
Proof.
  rewrite health_advice_parts.
  destruct bmi as [b |], glucose as [g |];
    try (split; [intro H; discriminate H
                | intros (H1 & H2 & _); discriminate]).
  destruct blood as [p |]; [destruct (PyNum.geb p 120) eqn:? |];
    destruct insulin_provided, skin_provided;
    (destruct age as [a |]; [destruct (PyNum.geb a 60) eqn:? |]);
    geb_facts; simpl; split;
    try (intro H; discriminate H);
    try (intros (_ & _ & Hp & Hi & Hs & Ha);
         first [ discriminate
               | specialize (Hp _ eq_refl); lra
               | specialize (Ha _ eq_refl); lra
               | reflexivity ]);
    intros _; repeat split; intros x E; inversion E; subst; assumption.
Qed.

Lemma health_advice_empty_witness :
  health_advice None None (Some 80) (Some 30) true true = [].
Proof.
  apply health_advice_empty. repeat split; try reflexivity.
  - intros p E. inversion E. unfold Qlt. simpl. lia.
  - intros a E. inversion E. unfold Qlt. simpl. lia.
Defined.

(* ====================================================================== *)
(** ** More on the submit block: values within the widget bounds *)
(* ====================================================================== *)

(** X12.  For values within the bounds of the form widgets the clipping
    changes nothing: glucose, blood pressure, weight and height go on as
    submitted, a provided insulin or skin thickness too, and all six bounded
    entries of the feature vector are in their ranges. *)
Theorem widget_values_unchanged (f : Form.t) (dpf : Q) :
  widget_bounds f ->
  exists v,
    submit_prepare f dpf = Ok v /\
    glucose v == inject_Z (Form.glucose f) /\
    blood v == inject_Z (Form.blood f) /\
    weight v == Form.weight f /\
    height v == Form.height f /\
    (forall insulin, Form.insulin f = Some insulin ->
       insulin_used v == inject_Z insulin) /\
    (forall skin, Form.skin f = Some skin ->
       skin_used v == inject_Z skin) /\
    fv_within_ranges (feature_vector v).
Proof.
  intros (Hage & _ & Hw & Hh & Hg & Hb & Hs & Hi).
  destruct (submit_prepare_ok f dpf)
    as (v & Hv & Eg & Eb & Ew & Eh & Ebmi & Ei & Es & _ & _ & Efv).
  exists v. split; [exact Hv |].
  split; [rewrite Eg; apply (clip_to_id _ k_glucose);
          apply (within_inject_Z _ 40 300); exact Hg |].
  split; [rewrite Eb; apply (clip_to_id _ k_blood);
          apply (within_inject_Z _ 40 140); exact Hb |].
  split; [rewrite Ew; apply (clip_to_id _ k_weight); exact Hw |].
  split; [rewrite Eh; apply (clip_to_id _ k_height); exact Hh |].
  split.
  { intros insulin E. rewrite Ei, E. apply (clip_to_id _ k_insulin).
    apply (within_inject_Z _ 10 400). apply Hi. exact E. }
  split.
  { intros skin E. rewrite Es, E. apply (clip_to_id _ k_skin).
    apply (within_inject_Z _ 5 80). apply Hs. exact E. }
  rewrite Efv. cbn [fv_within_ranges].
  split; [rewrite Eg; apply (clip_to_within _ k_glucose) |].
  split; [rewrite Eb; apply (clip_to_within _ k_blood) |].
  split; [apply compute_bmi_within with (1 := Ebmi) |].
  split; [rewrite Ei; apply (clip_to_within _ k_insulin) |].
  split; [rewrite Es; apply (clip_to_within _ k_skin) |].
  apply (within_inject_Z _ 10 100). exact Hage.
Qed.

Lemma widget_values_unchanged_witness :
  exists v,
    submit_prepare
      (Form.Make 40 0 70.0 170.0 100 80 None (Some 90%Z) "พ่อหรือแม่เป็น")
      1.0 = Ok v /\
    glucose v == 100 /\ insulin_used v == 90 /\
    fv_within_ranges (feature_vector v).
Proof.
  destruct
    (widget_values_unchanged
       (Form.Make 40 0 70.0 170.0 100 80 None (Some 90%Z) "พ่อหรือแม่เป็น")
       1.0) as (v & Hv & Hg & _ & _ & _ & Hi & _ & Hfv).
  - unfold widget_bounds, within, Qle. simpl.
    repeat split; try lia; try congruence;
      match goal with H : Some _ = Some _ |- _ => injection H as <- end;
      lia.
  - exists v. split; [exact Hv |]. split; [exact Hg |].
    split; [apply Hi; reflexivity | exact Hfv].
Defined.

(* ====================================================================== *)
(** ** More on the submit block: what is drawn in each case *)
(* ====================================================================== *)

(** Bring both sides of an equation between pages to one shape. *)
Ltac same_page :=
  unfold summary_calls, assessment_calls, msg_prediction_failed;
  rewrite <- ?app_assoc; reflexivity.

Lemma render_absent (f : Form.t) (dpf : Q) (v : locals) (w : world) :
  submit_render None f dpf v w =
  (Ok tt,
   World (page w ++ summary_calls f dpf v ++ [st_error msg_model_unavailable])
     (vars w)).
Proof. unfold submit_render. do 3 step. same_page. Qed.

Lemma render_failure (m : classifier) (f : Form.t) (dpf : Q) (v : locals)
    (w : world) (e : exn) :
  predict_prob m (feature_vector v) = Raise e ->
  is_Exception e = true ->
  submit_render (Some m) f dpf v w =
  (Ok tt,
   World (page w ++ summary_calls f dpf v
          ++ [st_error (msg_prediction_failed e)])
     (vars w)).
Proof.
  intros He Hc. unfold submit_render. do 2 step.
  unfold try_except, bind at 1, lift. rewrite He, Hc. step. same_page.
Qed.

(** An exception that line 216 does not catch ends the block after the
    summary. *)
Lemma render_uncaught (m : classifier) (f : Form.t) (dpf : Q) (v : locals)
    (w : world) (e : exn) :
  predict_prob m (feature_vector v) = Raise e ->
  is_Exception e = false ->
  submit_render (Some m) f dpf v w =
  (Raise e, World (page w ++ summary_calls f dpf v) (vars w)).
Proof.
  intros He Hc. unfold submit_render. do 2 step.
  unfold try_except, bind at 1, lift. rewrite He, Hc. same_page.
Qed.

(** The only exceptions of the prediction that are not [Exception]s come
    from the classifier. *)
Lemma predict_prob_uncaught (m : classifier) (fv : list (list Q)) (e : exn) :
  predict_prob m fv = Raise e ->
  is_Exception e = false ->
  classifier_raises m fv e.
Proof.
  unfold predict_prob, classifier_raises, py_index.
  destruct (predict_proba m) as [proba |].
  - destruct (proba fv) as [out | e']; simpl.
    + destruct out as [| [| p0 [| p1 row]] rest]; simpl;
        intros H Hc; inversion H; subst; discriminate Hc.
    + intros H _. inversion H. reflexivity.
  - destruct (predict m fv) as [out | e']; simpl.
    + destruct out as [| p0 rest]; simpl;
        intros H Hc; inversion H; subst; discriminate Hc.
    + intros H _. inversion H. reflexivity.
Qed.

Lemma render_success (m : classifier) (f : Form.t) (dpf : Q) (v : locals)
    (w : world) (p : Q) :
  predict_prob m (feature_vector v) = Ok p ->
  exists banner suggestions,
    assessed p banner suggestions /\
    submit_render (Some m) f dpf v w =
    (Ok tt,
     World (page w ++ summary_calls f dpf v
            ++ assessment_calls f v p banner suggestions)
       (vars w)).
Proof.
  intro Hp.
  destruct (Qlt_le_dec p 0.30) as [H1 | H1];
    [| destruct (Qlt_le_dec p 0.60) as [H2 | H2]].
  - do 2 eexists. split; [apply assessed_low; exact H1 |].
    unfold submit_render. do 2 step. apply try_except_Ok.
    rewrite Hp. step. rewrite (risk_low p H1).
    cbv beta iota delta [tier_Low]. do 2 step.
    change (String.eqb "ต่ำ" "ต่ำ") with true. cbv iota. do 2 step.
    rewrite bind_for_each_st. cbv beta. cbn [page vars]. step.
    rewrite (proj2 (PyNumFacts.geb_false p 0.6)) by lra.
    rewrite (proj2 (PyNumFacts.geb_false p 0.3)) by lra.
    step.
    unfold assessment_calls.
    destruct (negb (insulin_provided_flag v) || negb (skin_provided_flag v));
      step; same_page.
  - do 2 eexists. split; [apply assessed_medium; assumption |].
    unfold submit_render. do 2 step. apply try_except_Ok.
    rewrite Hp. step. rewrite (risk_medium p H1 H2).
    cbv beta iota delta [tier_Medium]. do 2 step.
    change (String.eqb "ปานกลาง" "ต่ำ") with false.
    change (String.eqb "ปานกลาง" "ปานกลาง") with true.
    cbv iota. do 2 step.
    rewrite bind_for_each_st. cbv beta. cbn [page vars]. step.
    rewrite (proj2 (PyNumFacts.geb_false p 0.6)) by lra.
    rewrite (proj2 (PyNumFacts.geb_true p 0.3)) by lra.
    do 3 step.
    unfold assessment_calls.
    destruct (negb (insulin_provided_flag v) || negb (skin_provided_flag v));
      step; same_page.
  - do 2 eexists. split; [apply assessed_high; exact H2 |].
    unfold submit_render. do 2 step. apply try_except_Ok.
    rewrite Hp. step. rewrite (risk_high p H2).
    cbv beta iota delta [tier_High]. do 2 step.
    change (String.eqb "สูง" "ต่ำ") with false.
    change (String.eqb "สูง" "ปานกลาง") with false.
    cbv iota. do 2 step.
    rewrite bind_for_each_st. cbv beta. cbn [page vars]. step.
    rewrite (proj2 (PyNumFacts.geb_true p 0.6)) by lra.
    do 3 step.
    unfold assessment_calls.
    destruct (negb (insulin_provided_flag v) || negb (skin_provided_flag v));
      step; same_page.
Qed.

(** The block runs lines 158-217 on the page it finds, with its variables
    bound. *)
Lemma submit_block_unfold (model : option classifier) (f : Form.t) (dpf : Q)
    (v : locals) (w : world) :
  submit_prepare f dpf = Ok v ->
  submit_block model f dpf w =
  submit_render model f dpf v (World (page w) (Some v)).
Proof.
  intro Hv. unfold submit_block. rewrite Hv. do 2 step. reflexivity.
Qed.

(* ====================================================================== *)
(** ** The feature vector and the classifier *)
(* ====================================================================== *)




(** X13.  The preparation of the submit block never fails, and the block
    ends with an exception in one case only: the prediction raises one that
    is not an [Exception], which line 216 does not catch; the run then stops
    with that exception after the summary.  Every other error of the
    prediction is caught, and the block ends normally. *)
Theorem submit_block_result (model : option classifier) (f : Form.t)
    (dpf : Q) :
  exists v,
    submit_prepare f dpf = Ok v /\
    match model with
    | None => fst (run (submit_block model f dpf)) = Ok tt
    | Some m =>
        match predict_prob m (feature_vector v) with
        | Ok _ => fst (run (submit_block model f dpf)) = Ok tt
        | Raise e =>
            if is_Exception e
            then fst (run (submit_block model f dpf)) = Ok tt
            else classifier_raises m (feature_vector v) e /\
                 run (submit_block model f dpf) =
                 (Raise e, World (summary_calls f dpf v) (Some v))
        end
    end.
Proof.
  destruct (submit_prepare_ok f dpf) as (v & Hv & _).
  exists v. split; [exact Hv |].
  unfold run. rewrite (submit_block_unfold _ _ _ v _ Hv).
  destruct model as [m |]; [| rewrite render_absent; reflexivity].
  destruct (predict_prob m (feature_vector v)) as [p | e] eqn:Hp.
  - destruct (render_success m f dpf v (World (page fresh) (Some v)) p Hp)
      as (banner & suggestions & _ & Hrun).
    rewrite Hrun. reflexivity.
  - destruct (is_Exception e) eqn:Hc.
    + rewrite (render_failure m f dpf v _ e Hp Hc). reflexivity.
    + split; [exact (predict_prob_uncaught _ _ _ Hp Hc) |].
      rewrite (render_uncaught m f dpf v _ e Hp Hc). reflexivity.
Qed.



(** X15.  When the prediction gives a probability, the page holds the
    summary, the probability, the banner of its tier, one line per advice,
    the suggestions of the same tier, and the note about estimated values
    exactly when an optional input was missing.  Banner and suggestions
    always belong to the same tier. *)
Theorem assessment_page (m : classifier) (f : Form.t) (dpf : Q)
    (v : locals) (p : Q) :
  submit_prepare f dpf = Ok v ->
  predict_prob m (feature_vector v) = Ok p ->
  exists banner suggestions,
    assessed p banner suggestions /\
    run (submit_block (Some m) f dpf) =
    (Ok tt,
     World (summary_calls f dpf v
            ++ assessment_calls f v p banner suggestions)
       (Some v)).
Proof.
  intros Hv Hp. unfold run.
  rewrite (submit_block_unfold _ _ _ v _ Hv).
  destruct (render_success m f dpf v (World (page fresh) (Some v)) p Hp)
    as (banner & suggestions & Ha & Hrun).
  exists banner, suggestions. split; [exact Ha |].
  rewrite Hrun. reflexivity.
Qed.

Lemma assessment_page_witness :
  exists banner suggestions,
    assessed 0.5 banner suggestions /\
    run (submit_block (Some stub_half)
           (Form.Make 40 0 70.0 170.0 100 80 None None "พ่อหรือแม่เป็น")
           1.0) =
    (Ok tt,
     World (summary_calls
              (Form.Make 40 0 70.0 170.0 100 80 None None "พ่อหรือแม่เป็น")
              1.0
              (Locals 100 80 70.0 170.0 24.22 80.0 20.0 false false
                 [[100; 24.22; 40; 80; 80.0; 1.0; 20.0]])
            ++ assessment_calls
                 (Form.Make 40 0 70.0 170.0 100 80 None None
                    "พ่อหรือแม่เป็น")
                 (Locals 100 80 70.0 170.0 24.22 80.0 20.0 false false
                    [[100; 24.22; 40; 80; 80.0; 1.0; 20.0]])
                 0.5 banner suggestions)
       (Some (Locals 100 80 70.0 170.0 24.22 80.0 20.0 false false
                [[100; 24.22; 40; 80; 80.0; 1.0; 20.0]]))).
Proof.
  apply assessment_page.
  - vm_compute. reflexivity.
  - reflexivity.
Defined.

(** X16.  Whatever the classifier does, the first two things drawn are the
    heading and the summary, and the summary shows exactly the seven values
    of the feature vector, in the vector's order. *)
Theorem summary_shows_feature_vector (model : option classifier)
    (f : Form.t) (dpf : Q) :
  exists v rest r,
    run (submit_block model f dpf) =
      (r, World (summary_calls f dpf v ++ rest) (Some v)) /\
    feature_vector v =
      [[s_Glucose (summary_of f dpf v); s_BMI (summary_of f dpf v);
        inject_Z (s_Age (summary_of f dpf v));
        s_BloodPressure (summary_of f dpf v);
        s_Insulin_used (summary_of f dpf v); s_DPF (summary_of f dpf v);
        s_SkinThickness_used (summary_of f dpf v)]].
Proof.
  destruct (submit_prepare_ok f dpf)
    as (v & Hv & _ & _ & _ & _ & _ & _ & _ & _ & _ & Hfv).
  exists v. unfold run. rewrite (submit_block_unfold _ _ _ v _ Hv).
  destruct model as [m |].
  - destruct (predict_prob m (feature_vector v)) as [p | e] eqn:Hp.
    + destruct (render_success m f dpf v (World (page fresh) (Some v)) p Hp)
        as (banner & suggestions & _ & Hrun).
      do 2 eexists. split; [rewrite Hrun; reflexivity | exact Hfv].
    + destruct (is_Exception e) eqn:Hc.
      * do 2 eexists.
        split; [rewrite (render_failure m f dpf v _ e Hp Hc);
                reflexivity | exact Hfv].
      * exists [], (Raise e).
        split; [rewrite (render_uncaught m f dpf v _ e Hp Hc);
                cbn [page]; rewrite app_nil_r; reflexivity | exact Hfv].
  - do 2 eexists. split; [rewrite render_absent; reflexivity | exact Hfv].
Qed.

(** X17.  A classifier that has no [predict_proba] has its label taken as
    the probability: label 0 is drawn as the Low tier and label 1 as the
    High tier, each with its own suggestions. *)
Theorem label_only_classifier (m : classifier) (f : Form.t) (dpf : Q)
    (v : locals) (label : Q) (others : list Q) :
  submit_prepare f dpf = Ok v ->
  predict_proba m = None ->
  predict m (feature_vector v) = Ok (label :: others) ->
  (label == 0 ->
   run (submit_block (Some m) f dpf) =
   (Ok tt,
    World (summary_calls f dpf v
           ++ assessment_calls f v label (st_success (banner_text tier_Low))
                [st_write msg_suggest_low])
      (Some v))) /\
  (label == 1 ->
   run (submit_block (Some m) f dpf) =
   (Ok tt,
    World (summary_calls f dpf v
           ++ assessment_calls f v label (st_error (banner_text tier_High))
                [st_write msg_suggest_high_1; st_write msg_suggest_high_2])
      (Some v))).
Proof.
  intros Hv Hnone Hpred.
  assert (Hp : predict_prob m (feature_vector v) = Ok label)
    by (unfold predict_prob; rewrite Hnone, Hpred; reflexivity).
  unfold run. rewrite (submit_block_unfold _ _ _ v _ Hv).
  destruct (render_success m f dpf v (World (page fresh) (Some v)) label Hp)
    as (banner & suggestions & Ha & Hrun).
  split; intro Hl; rewrite Hrun; inversion Ha; subst;
    first [reflexivity | exfalso; lra].
Qed.

Lemma label_only_classifier_witness :
  run (submit_block (Some (Classifier None (fun _ => Ok [1]) NdArray))
         (Form.Make 40 0 70.0 170.0 100 80 None None "พ่อหรือแม่เป็น") 1.0) =
  (Ok tt,
   World (summary_calls
            (Form.Make 40 0 70.0 170.0 100 80 None None "พ่อหรือแม่เป็น") 1.0
            (Locals 100 80 70.0 170.0 24.22 80.0 20.0 false false
               [[100; 24.22; 40; 80; 80.0; 1.0; 20.0]])
          ++ assessment_calls
               (Form.Make 40 0 70.0 170.0 100 80 None None "พ่อหรือแม่เป็น")
               (Locals 100 80 70.0 170.0 24.22 80.0 20.0 false false
                  [[100; 24.22; 40; 80; 80.0; 1.0; 20.0]])
               1 (st_error (banner_text tier_High))
               [st_write msg_suggest_high_1; st_write msg_suggest_high_2])
     (Some (Locals 100 80 70.0 170.0 24.22 80.0 20.0 false false
              [[100; 24.22; 40; 80; 80.0; 1.0; 20.0]]))).
Proof.
  apply (label_only_classifier (Classifier None (fun _ => Ok [1]) NdArray)
           _ _ _ 1 []).
  - vm_compute. reflexivity.
  - reflexivity.
  - reflexivity.
  - reflexivity.
Defined.

(** X18.  When [predict_proba] returns no row, or a first row without a
    second entry, there is no positive-class probability to read: indexing
    raises [IndexError], and the block shows the prediction error, with the
    message of that [IndexError], after the summary and draws no
    assessment.  The message is the one of the sequence type returned:
    that of a list, or that of a numpy array, which names the index and the
    size. *)
Theorem short_probability_output (m : classifier) (f : Form.t) (dpf : Q)
    (v : locals) (proba : list (list Q) -> result (list (list Q)))
    (out : list (list Q)) :
  submit_prepare f dpf = Ok v ->
  predict_proba m = Some proba ->
  proba (feature_vector v) = Ok out ->
  (length (hd [] out) < 2)%nat ->
  exists i size,
    (out = [] /\ i = 0%nat /\ size = 0%nat \/
     out <> [] /\ i = 1%nat /\ size = length (hd [] out)) /\
    predict_prob m (feature_vector v) =
      Raise (IndexError (index_error_text (returns m) i size)) /\
    run (submit_block (Some m) f dpf) =
    (Ok tt,
     World (summary_calls f dpf v
            ++ [st_error
                  (msg_prediction_failed
                     (IndexError (index_error_text (returns m) i size)))])
       (Some v)) /\
    exn_str (IndexError (index_error_text (returns m) i size)) =
      match returns m with
      | PyList => "list index out of range"
      | NdArray =>
          "index " ++ nat_str i ++ " is out of bounds for axis 0 with size "
          ++ nat_str size
      end.
Proof.
  intros Hv Hsome Hout Hshort.
  assert (Hp : exists i size,
             (out = [] /\ i = 0%nat /\ size = 0%nat \/
              out <> [] /\ i = 1%nat /\ size = length (hd [] out)) /\
             predict_prob m (feature_vector v) =
               Raise (IndexError (index_error_text (returns m) i size))).
  { unfold predict_prob. rewrite Hsome, Hout.
    destruct out as [| [| p0 [| p1 row]] rest]; simpl in *;
      try lia; do 2 eexists;
      (split; [| reflexivity]); simpl;
      first [left; repeat split; reflexivity
            | right; repeat split; congruence]. }
  destruct Hp as (i & size & Hcase & Hp).
  exists i, size. split; [exact Hcase |]. split; [exact Hp |].
  split; [| destruct (returns m); reflexivity].
  unfold run. rewrite (submit_block_unfold _ _ _ v _ Hv).
  rewrite (render_failure m f dpf v _ _ Hp eq_refl). reflexivity.
Qed.

Lemma short_probability_output_witness :
  predict_prob
    (Classifier (Some (fun _ => Ok [[0.7]])) (fun _ => Ok [1]) NdArray)
    [[100; 24.22; 40; 80; 80.0; 1.0; 20.0]] =
  Raise (IndexError "index 1 is out of bounds for axis 0 with size 1").
Proof.
  destruct (short_probability_output
              (Classifier (Some (fun _ => Ok [[0.7]])) (fun _ => Ok [1])
                 NdArray)
              (Form.Make 40 0 70.0 170.0 100 80 None None
                 "พ่อหรือแม่เป็น") 1.0
              (Locals 100 80 70.0 170.0 24.22 80.0 20.0 false false
                 [[100; 24.22; 40; 80; 80.0; 1.0; 20.0]])
              (fun _ => Ok [[0.7]]) [[0.7]])
    as (i & size & Hcase & Hp & _).
  - vm_compute. reflexivity.
  - reflexivity.
  - reflexivity.
  - simpl. lia.
  - destruct Hcase as [(H & _) | (_ & -> & ->)]; [discriminate H |].
    exact Hp.
Defined.

(* ====================================================================== *)
(** ** The whole script *)
(* ====================================================================== *)

Lemma load_and_report_run (o : load_outcome) (w : world) :
  exists banner,
    load_and_report o w =
      (Ok (fst (load_model MODEL_FILENAME o)),
       World (page w ++ [banner]) (vars w)) /\
    match o with
    | Loaded m =>
        fst (load_model MODEL_FILENAME o) = Some m /\
        banner = st_success "โมเดลโหลดสำเร็จ — พร้อมใช้งาน"
    | LoadedNone =>
        load_model MODEL_FILENAME o = (None, None) /\
        banner = st_success "โมเดลโหลดสำเร็จ — พร้อมใช้งาน"
    | FileMissing | LoadRaises _ =>
        fst (load_model MODEL_FILENAME o) = None /\
        exists err,
          snd (load_model MODEL_FILENAME o) = Some err /\
          err <> EmptyString /\
          banner = st_warning err
    end.
Proof.
  destruct o as [| e | m |]; eexists; (split; [reflexivity |]).
  - split; [reflexivity |].
    eexists. split; [reflexivity |]. split; [discriminate | reflexivity].
  - split; [reflexivity |].
    eexists. split; [reflexivity |]. split; [discriminate | reflexivity].
  - split; reflexivity.
  - split; reflexivity.
Qed.


Lemma script_offered_label (model : option classifier) (f : Form.t)
    (submit : bool) (w : world) :
  In (Form.dpf_label f) (dict_keys DPF_MAP) ->
  exists dpf,
    In (Form.dpf_label f, dpf) DPF_MAP /\
    script model f submit w =
      if submit then submit_block model f dpf w else (Ok tt, w).
Proof.
  intro Hin.
  destruct (dict_getitem_present DPF_MAP _ Hin) as (dpf & Hget & Hpair).
  exists dpf. split; [exact Hpair |].
  unfold script. rewrite Hget. step. destruct submit; reflexivity.
Qed.

(** A run of the whole script is a run of the form and the submit block
    on the page that holds the load banner. *)
Lemma app_unfold (o : load_outcome) (f : Form.t) (submit : bool) :
  exists banner,
    run (app o f submit) =
      script (fst (load_model MODEL_FILENAME o)) f submit
        (World [banner] None) /\
    (load_failed o ->
     fst (load_model MODEL_FILENAME o) = None /\
     exists err,
       snd (load_model MODEL_FILENAME o) = Some err /\
       banner = st_warning err).
Proof.
  destruct (load_and_report_run o fresh) as (banner & Hrun & Hcases).
  exists banner. split.
  - unfold run, app, bind. rewrite Hrun. reflexivity.
  - intros [-> | (e & ->)];
      destruct Hcases as (Hnone & err & Herr & _ & Hb);
      (split; [exact Hnone |]); exists err; split; assumption.
Qed.



(** X21.  When the model did not load and the button is pressed with an
    offered label, the load warning is followed by the summary and the
    model-unavailable error and by nothing more: the user is told twice,
    and no probability, banner or advice is drawn. *)
Theorem failed_load_submission (o : load_outcome) (f : Form.t) :
  load_failed o ->
  In (Form.dpf_label f) (dict_keys DPF_MAP) ->
  exists err dpf v,
    snd (load_model MODEL_FILENAME o) = Some err /\
    In (Form.dpf_label f, dpf) DPF_MAP /\
    submit_prepare f dpf = Ok v /\
    run (app o f true) =
      (Ok tt,
       World ([st_warning err] ++ summary_calls f dpf v
              ++ [st_error msg_model_unavailable])
         (Some v)).
Proof.
  intros Hfail Hin.
  destruct (app_unfold o f true) as (banner & Happ & Hcase).
  destruct (Hcase Hfail) as (Hnone & err & Herr & Hb).
  destruct (script_offered_label None f true (World [banner] None) Hin)
    as (dpf & Hpair & Hscript).
  destruct (submit_prepare_ok f dpf) as (v & Hv & _).
  exists err, dpf, v. split; [exact Herr |]. split; [exact Hpair |].
  split; [exact Hv |].
  rewrite Happ, Hnone, Hscript.
  rewrite (submit_block_unfold _ _ _ v _ Hv), render_absent.
  subst banner. reflexivity.
Qed.

Lemma failed_load_submission_witness :
  exists err dpf v,
    snd (load_model MODEL_FILENAME FileMissing) = Some err /\
    In ("พ่อหรือแม่เป็น", dpf) DPF_MAP /\
    submit_prepare
      (Form.Make 40 0 70.0 170.0 100 80 None None "พ่อหรือแม่เป็น") dpf =
      Ok v /\
    run (app FileMissing
           (Form.Make 40 0 70.0 170.0 100 80 None None "พ่อหรือแม่เป็น")
           true) =
      (Ok tt,
       World ([st_warning err]
              ++ summary_calls
                   (Form.Make 40 0 70.0 170.0 100 80 None None
                      "พ่อหรือแม่เป็น") dpf v
              ++ [st_error msg_model_unavailable])
         (Some v)).
Proof.
  apply (failed_load_submission FileMissing
           (Form.Make 40 0 70.0 170.0 100 80 None None "พ่อหรือแม่เป็น")).
  - left. reflexivity.
  - simpl. tauto.
Defined.

(** X22.  After a submission with an offered label, the family-history
    entry of the feature vector is the value that the table gives the
    selected label, so it is one of 0.05, 0.5, 1.0, 2.0 and 2.5. *)
Theorem family_history_entry (o : load_outcome) (f : Form.t) :
  In (Form.dpf_label f) (dict_keys DPF_MAP) ->
  exists v dpf,
    vars (snd (run (app o f true))) = Some v /\
    In (Form.dpf_label f, dpf) DPF_MAP /\
    In dpf [0.05; 0.5; 1.0; 2.0; 2.5] /\
    feature_vector v =
      [[glucose v; bmi v; inject_Z (Form.age f); blood v; insulin_used v;
        dpf; skin_used v]].
Proof.
  intro Hin. destruct (app_unfold o f true) as (banner & Happ & _).
  destruct (script_offered_label (fst (load_model MODEL_FILENAME o)) f
              true (World [banner] None) Hin) as (dpf & Hpair & Hscript).
  destruct (submit_prepare_ok f dpf)
    as (v & Hv & _ & _ & _ & _ & _ & _ & _ & _ & _ & Hfv).
  exists v, dpf. rewrite Happ, Hscript.
  rewrite (submit_block_unfold _ _ _ v _ Hv).
  rewrite submit_render_keeps_vars.
  split; [reflexivity |]. split; [exact Hpair |]. split; [| exact Hfv].
  change [0.05; 0.5; 1.0; 2.0; 2.5] with (map snd DPF_MAP).
  apply in_map_iff. exists (Form.dpf_label f, dpf).
  split; [reflexivity | exact Hpair].
Qed.

Lemma family_history_entry_witness :
  exists v dpf,
    vars (snd (run (app FileMissing
                      (Form.Make 40 0 70.0 170.0 100 80 None None
                         "พ่อหรือแม่เป็น") true))) = Some v /\
    In ("พ่อหรือแม่เป็น", dpf) DPF_MAP /\
    In dpf [0.05; 0.5; 1.0; 2.0; 2.5] /\
    feature_vector v =
      [[glucose v; bmi v; inject_Z 40; blood v; insulin_used v; dpf;
        skin_used v]].
Proof.
  apply (family_history_entry FileMissing
           (Form.Make 40 0 70.0 170.0 100 80 None None "พ่อหรือแม่เป็น")).
  simpl. tauto.
Defined.

(** X23.  The number of pregnancies is read by the form but used nowhere:
    changing it changes neither the page nor the variables of a run. *)
Theorem pregnancies_unused (o : load_outcome) (f : Form.t) (n : Z)
    (submit : bool) :
  run (app o (with_pregnancies f n) submit) = run (app o f submit).
Proof. destruct f. reflexivity. Qed.
